(** * Travel planner: cost aggregation, static fallback and budget split

    A shallow embedding of the cost-estimation core of
    [travel_planner_usingGradio.py]:

    - [estimate_daily_costs]              (static per-city fallback),
    - [get_transport_costs_api]           (static transport table),
    - [get_comprehensive_cost_analysis]   (multi-source aggregation),
    - [enhance_cost_analysis_with_duckduckgo],
    - the validation and budget split of [plan_trip], and
      [calculate_budget_breakdown].

    Conventions of the embedding.

    - Python numbers ([int] and [float]) are exact rationals [Q]; results are
      compared with [==].  Binary floating-point rounding is not modelled.
      [num_people] (a slider with step 1) and [num_days] (a [timedelta.days]
      plus one) are integers [Z].
    - A Python [str] is a [string] holding one code point per character, for
      the code points U+0000..U+00FF.
    - [try: ... except Exception:] is an [option] computation ([None] = an
      exception was raised) followed by the handler.
    - Network adapters are not executed: their answers are the fields of a
      [world] record, and every adapter call is recorded in a call log. *)

From Stdlib Require Import ZArith QArith Qround Qabs String Ascii List Bool Lia Lqa.
From Stdlib Require DecimalString.
Import ListNotations.

Local Open Scope Q_scope.

(** ** Python numerics *)

Module PyNum.

(** [a > b] and [a < b] on numbers. *)
Definition Qltb (a b : Q) : bool := negb (Qle_bool b a).

(** [min(a, b)]: the first argument unless the second is strictly smaller. *)
Definition py_min (a b : Q) : Q := if Qltb b a then b else a.

(** [max(a, b)]: the first argument unless the second is strictly larger. *)
Definition py_max (a b : Q) : Q := if Qltb a b then b else a.

(** [a / b], raising [ZeroDivisionError] on a zero divisor. *)
Definition py_div (a b : Q) : option Q :=
  if Qeq_bool b 0 then None else Some (a / b).

(** Rounding to the nearest integer, ties to the even neighbour. *)
Definition round_half_even (x : Q) : Z :=
  let f := Qfloor x in
  match Qcompare (x - inject_Z f) (1 # 2) with
  | Lt => f
  | Gt => (f + 1)%Z
  | Eq => if Z.even f then f else (f + 1)%Z
  end.

(** [round(x, 2)]. *)
Definition round2 (x : Q) : Q := inject_Z (round_half_even (x * 100)) / 100.

End PyNum.
Import PyNum.

(** ** Python strings *)

Module PyStr.

(** [str.lower] on one code point below U+0100: A-Z and the Latin-1 capitals
    (U+00C0..U+00DE without the multiplication sign U+00D7) move up by 32. *)
Definition lower_char (c : ascii) : ascii :=
  let n := nat_of_ascii c in
  if ((65 <=? n) && (n <=? 90))%nat
     || ((192 <=? n) && (n <=? 222) && negb (n =? 215))%nat
  then ascii_of_nat (n + 32) else c.

Fixpoint lower (s : string) : string :=
  match s with
  | EmptyString => EmptyString
  | String c s' => String (lower_char c) (lower s')
  end.

(** The code points below U+0100 that [str.strip()] removes:
    U+0009..U+000D, U+001C..U+0020, U+0085 and U+00A0. *)
Definition is_space (c : ascii) : bool :=
  let n := nat_of_ascii c in
  (((9 <=? n) && (n <=? 13)) || ((28 <=? n) && (n <=? 32))
   || (n =? 133) || (n =? 160))%nat.

Fixpoint lstrip (s : string) : string :=
  match s with
  | EmptyString => EmptyString
  | String c s' => if is_space c then lstrip s' else s
  end.

Fixpoint rstrip (s : string) : string :=
  match s with
  | EmptyString => EmptyString
  | String c s' =>
      match rstrip s' with
      | EmptyString => if is_space c then EmptyString else String c EmptyString
      | r => String c r
      end
  end.

Definition strip (s : string) : string := rstrip (lstrip s).

(** Truth value of a [str]. *)
Definition nonempty (s : string) : bool :=
  match s with EmptyString => false | _ => true end.

End PyStr.
Import PyStr.

(** ** Dictionaries with string keys *)

Section Dict.
Context {V : Type}.

(** [d[k]] / [k in d] for a dictionary literal, kept as its item list. *)
Fixpoint dict_get (d : list (string * V)) (k : string) : option V :=
  match d with
  | [] => None
  | (k', v) :: d' => if String.eqb k' k then Some v else dict_get d' k
  end.

Definition dict_mem (d : list (string * V)) (k : string) : bool :=
  match dict_get d k with Some _ => true | None => false end.
End Dict.

(** ** The static fallback: [estimate_daily_costs] *)

Record base_estimate := { accommodation : Z; food : Z }.

Definition base_estimates : list (string * base_estimate) :=
  [ ("dubai",     {| accommodation := 120; food := 40 |});
    ("london",    {| accommodation := 150; food := 50 |});
    ("new york",  {| accommodation := 180; food := 60 |});
    ("paris",     {| accommodation := 140; food := 45 |});
    ("tokyo",     {| accommodation := 130; food := 35 |});
    ("singapore", {| accommodation := 140; food := 40 |});
    ("bangkok",   {| accommodation := 60;  food := 20 |});
    ("bali",      {| accommodation := 80;  food := 25 |});
    ("mumbai",    {| accommodation := 70;  food := 15 |});
    ("delhi",     {| accommodation := 65;  food := 15 |});
    ("bangalore", {| accommodation := 75;  food := 18 |});
    ("chennai",   {| accommodation := 60;  food := 15 |});
    ("kolkata",   {| accommodation := 55;  food := 12 |});
    ("hyderabad", {| accommodation := 65;  food := 16 |});
    ("pune",      {| accommodation := 60;  food := 15 |}) ]%Z%string.

(** Default estimates for unknown cities. *)
Definition default_estimate : base_estimate :=
  {| accommodation := 100; food := 30 |}.

(** [city.lower().strip()]. *)
Definition city_key (city : string) : string := strip (lower city).

(** The entry picked for a city: its row, or the default. *)
Definition estimates_for (city : string) : base_estimate :=
  match dict_get base_estimates (city_key city) with
  | Some e => e
  | None => default_estimate
  end.

Record daily_costs := {
  daily_accommodation : Q;
  daily_food : Q;
  total_daily : Q;
  city_known : bool
}.

(** The budget adjustment (the [if]/[elif] on [budget_per_day]): the pair
    (accommodation, food) before rounding; [None] when a division raises. *)
Definition adjust_to_budget (daily_accommodation daily_food budget_per_day : Q)
  : option (Q * Q) :=
  let total_daily_cost := daily_accommodation + daily_food in
  if Qltb (total_daily_cost * (15 # 10)) budget_per_day then
    match py_div budget_per_day total_daily_cost with
    | None => None
    | Some ratio =>
        let adjustment_factor := py_min ratio 2 in
        Some (daily_accommodation * adjustment_factor,
              daily_food * adjustment_factor)
    end
  else if Qltb budget_per_day (total_daily_cost * (7 # 10)) then
    match py_div budget_per_day total_daily_cost with
    | None => None
    | Some ratio =>
        let adjustment_factor := py_max ratio (1 # 2) in
        Some (daily_accommodation * adjustment_factor,
              daily_food * adjustment_factor)
    end
  else Some (daily_accommodation, daily_food).

(** The body of the [try] block, up to the values that are rounded. *)
Definition estimate_unrounded (city : string) (trip_budget : Q)
    (num_days num_people : Z) : option (Q * Q) :=
  let estimates := estimates_for city in
  let daily_accommodation := inject_Z (accommodation estimates * num_people) in
  let daily_food := inject_Z (food estimates * num_people) in
  match py_div trip_budget (inject_Z num_days) with
  | None => None
  | Some budget_per_day =>
      adjust_to_budget daily_accommodation daily_food budget_per_day
  end.

Definition estimate_daily_costs (city : string) (trip_budget : Q)
    (num_days num_people : Z) : daily_costs :=
  match estimate_unrounded city trip_budget num_days num_people with
  | Some (daily_accommodation, daily_food) =>
      {| daily_accommodation := round2 daily_accommodation;
         daily_food := round2 daily_food;
         total_daily := round2 (daily_accommodation + daily_food);
         city_known := dict_mem base_estimates (city_key city) |}
  | None =>
      (* except Exception: fallback estimates *)
      {| daily_accommodation := round2 (inject_Z (100 * num_people));
         daily_food := round2 (inject_Z (30 * num_people));
         total_daily := round2 (inject_Z (130 * num_people));
         city_known := false |}
  end.

(** ** The static transport table: [get_transport_costs_api] *)

Record transport_costs_t := {
  daily_transport_cost : Z;
  includes : string
}.

Definition transport_estimates : list (string * Z) :=
  [ ("dubai", 25); ("london", 15); ("new york", 12); ("paris", 8);
    ("tokyo", 10); ("singapore", 8); ("bangkok", 5); ("bali", 8);
    ("mumbai", 3); ("delhi", 3); ("bangalore", 4); ("chennai", 3);
    ("kolkata", 3); ("hyderabad", 4); ("pune", 3) ]%Z%string.

(** The result is an [option] because the Python function ends in
    [except Exception: return None]; nothing in its body raises on a [str]. *)
Definition get_transport_costs_api (city : string) : option transport_costs_t :=
  let city_lower := city_key city in
  match dict_get transport_estimates city_lower with
  | Some cost =>
      Some {| daily_transport_cost := cost;
              includes := "Public transport, occasional taxi/rideshare" |}
  | None =>
      Some {| daily_transport_cost := 8;
              includes := "Public transport, occasional taxi/rideshare" |}
  end.

(** ** Answers of the network adapters *)

(** What [json.loads] can return for the LLM reply. *)
#[warnings="-register-all"]
Inductive json :=
| JNull
| JBool (b : bool)
| JNum (q : Q)
| JStr (s : string)
| JArr (items : list json)
| JObj (fields : list (string * json)).

(** Truth value of a parsed JSON value ([if results["llm_estimates"]:]). *)
Definition json_truthy (j : json) : bool :=
  match j with
  | JNull => false
  | JBool b => b
  | JNum q => negb (Qeq_bool q 0)
  | JStr s => nonempty s
  | JArr items => match items with [] => false | _ => true end
  | JObj fields => match fields with [] => false | _ => true end
  end.

(** [j[key]]: [KeyError] on a missing key, [TypeError] on a non-object. *)
Definition json_item (j : json) (key : string) : option json :=
  match j with
  | JObj fields => dict_get fields key
  | _ => None
  end.

(** The value as a number.  A [bool] is the integer 0 or 1.  Any other value
    makes the arithmetic of the aggregation raise [TypeError] before the
    estimates are built (at the latest when it is added to a number or
    rounded), so it is an exception here. *)
Definition json_number (j : json) : option Q :=
  match j with
  | JNum q => Some q
  | JBool b => Some (if b then 1 else 0)
  | _ => None
  end.

Definition json_number_item (j : json) (key : string) : option Q :=
  match json_item j key with
  | Some v => json_number v
  | None => None
  end.

(** Truth value of an optional result ([None] is false). *)
Definition truthy_opt {A : Type} (truthy : A -> bool) (o : option A) : bool :=
  match o with Some a => truthy a | None => false end.

Definition llm_truthy (llm : option json) : bool := truthy_opt json_truthy llm.

(** [get_hotel_prices_api]: [None], or a dictionary with three keys. *)
Record hotel_prices_t := {
  average_price : Q;
  price_range : string;
  hotel_count : Z
}.

(** [get_food_costs_api]: [None], or a dictionary with three keys. *)
Record food_costs_t := {
  average_meal_cost : Q;
  daily_food_cost : Q;
  restaurant_count : Z
}.

(** A dictionary of search insights (query to result texts), kept as its list
    of keys: the free text is not modelled, the truth value is. *)
Definition insights := list string.

Definition insights_truthy (i : insights) : bool :=
  match i with [] => false | _ => true end.

(** The [results] dictionary of [get_comprehensive_cost_analysis] once the
    five sources have been queried. *)
Record source_results := {
  llm_estimates : option json;
  hotel_prices : option hotel_prices_t;
  food_costs : option food_costs_t;
  transport_costs : option transport_costs_t;
  cost_of_living : option json
}.

(** ** The aggregation: "Calculate final estimates" *)

(** "Use hotel API data if available". *)
Definition accommodation_cost (results : source_results) (num_people : Z)
  : option Q :=
  match hotel_prices results with
  | Some h => Some (average_price h)
  | None =>
      if llm_truthy (llm_estimates results) then
        match llm_estimates results with
        | Some llm => json_number_item llm "accommodation_per_night"
        | None => None
        end
      else Some (inject_Z (100 * num_people))
  end.

(** "Use food API data if available". *)
Definition food_cost (results : source_results) (num_people : Z) : option Q :=
  match food_costs results with
  | Some f => Some (daily_food_cost f * inject_Z num_people)
  | None =>
      if llm_truthy (llm_estimates results) then
        match llm_estimates results with
        | Some llm =>
            match json_number_item llm "food_per_day" with
            | Some v => Some (v * inject_Z num_people)
            | None => None
            end
        | None => None
        end
      else Some (inject_Z (30 * num_people))
  end.

(** "Use transport API data if available". *)
Definition transport_cost (results : source_results) (num_people : Z)
  : option Q :=
  match transport_costs results with
  | Some t => Some (inject_Z (daily_transport_cost t * num_people))
  | None =>
      if llm_truthy (llm_estimates results) then
        match llm_estimates results with
        | Some llm =>
            match json_number_item llm "transport_per_day" with
            | Some v => Some (v * inject_Z num_people)
            | None => None
            end
        | None => None
        end
      else Some (inject_Z (8 * num_people))
  end.

Record final_estimates_t := {
  accommodation_per_night : Q;
  food_per_day : Q;
  transport_per_day : Q;
  total_per_day : Q;
  total_trip_cost : Q;
  data_sources : list string
}.

(** "Track data sources": one tag per source that returned data. *)
Definition tracked_sources (results : source_results) : list string :=
  (if truthy_opt (fun _ => true) (hotel_prices results)
   then ["Real hotel prices"%string] else [])
  ++ (if truthy_opt (fun _ => true) (food_costs results)
      then ["Restaurant price analysis"%string] else [])
  ++ (if llm_truthy (llm_estimates results)
      then ["LLM research"%string] else []).

(** The three costs, the total and the source list; [None] when a lookup in
    the LLM reply or the arithmetic on it raises. *)
Definition calculate_final_estimates (results : source_results)
    (num_days num_people : Z) : option final_estimates_t :=
  match accommodation_cost results num_people,
        food_cost results num_people,
        transport_cost results num_people with
  | Some accommodation_cost, Some food_cost, Some transport_cost =>
      let total_daily := accommodation_cost + food_cost + transport_cost in
      Some {| accommodation_per_night := round2 accommodation_cost;
              food_per_day := round2 food_cost;
              transport_per_day := round2 transport_cost;
              total_per_day := round2 total_daily;
              total_trip_cost := round2 (total_daily * inject_Z num_days);
              data_sources := tracked_sources results |}
  | _, _, _ => None
  end.

(** ** Adapter calls and their log *)

Inductive adapter_call :=
| GetCurrentWeather
| GetWeatherForecast
| GetCurrencyExchangeDuckduckgo
| GetExchangeRate
| OrchestrateItinerary
| GetRealTimeCostsLlm
| GetHotelPricesApi
| GetFoodCostsApi
| GetTransportCostsApi
| GetCostOfLivingApi
| GetRealTimePricesDuckduckgo (item_type : string)
| GetLocalInsightsDuckduckgo
| GetWeatherInsightsDuckduckgo
| GetTravelAlertsDuckduckgo
| GetFallbackInsights
| GetTripadvisorHotels
| GetGooglePlaces (place_type : string).

(** What the outside world answers during one planning request.  Every
    adapter except [orchestrate_itinerary] catches its own exceptions, so an
    answer is a value ([None] or empty on failure); the itinerary call can
    raise, which is [None] here. *)
Record world := {
  w_llm : option json;
  w_hotel : option hotel_prices_t;
  w_food : option food_costs_t;
  w_cost_of_living : option json;
  w_prices : string -> list string;
  w_local_insights : insights;
  w_weather_insights : insights;
  w_travel_alerts : insights;
  w_duckduckgo_rate : option Q;
  w_itinerary : option string
}.

(** A computation that appends to the call log. *)
Definition traced (A : Type) : Type := list adapter_call -> A * list adapter_call.

Definition ret {A : Type} (a : A) : traced A := fun log => (a, log).

Definition bind {A B : Type} (m : traced A) (k : A -> traced B) : traced B :=
  fun log => let (a, log') := m log in k a log'.

(** Calling an adapter: log the call, hand back the world's answer. *)
Definition call {A : Type} (c : adapter_call) (answer : A) : traced A :=
  fun log => (answer, log ++ [c]).

Declare Scope traced_scope.
Delimit Scope traced_scope with traced.
Notation "x <- m ;; k" := (bind m (fun x => k))
  (at level 61, m at next level, right associativity) : traced_scope.
Notation "m ;;; k" := (bind m (fun _ => k))
  (at level 61, right associativity) : traced_scope.

(** Run from an empty log. *)
Definition run {A : Type} (m : traced A) : A * list adapter_call := m [].

(** ** [get_fallback_insights] *)

Record fallback_insights_t := {
  fb_local_insights : insights;
  fb_weather_insights : insights
}.

(** The five listed cities carry the same keys. *)
Definition city_insights : fallback_insights_t :=
  {| fb_local_insights :=
       [ "best time to visit"; "local customs"; "budget travel tips";
         "must visit places"; "local food recommendations" ]%string;
     fb_weather_insights :=
       [ "best weather"; "rainy season"; "temperature" ]%string |}.

Definition fallback_data : list (string * fallback_insights_t) :=
  [ ("dubai", city_insights); ("london", city_insights);
    ("new york", city_insights); ("paris", city_insights);
    ("goa", city_insights) ]%string.

(** Generic insights for unknown cities. *)
Definition generic_insights : fallback_insights_t :=
  {| fb_local_insights :=
       [ "general tips"; "budget advice"; "safety tips" ]%string;
     fb_weather_insights := [ "general weather"; "packing tips" ]%string |}.

Definition get_fallback_insights (city : string) : fallback_insights_t :=
  let city_lower := city_key city in
  match dict_get fallback_data city_lower with
  | Some d => d
  | None => generic_insights
  end.

(** ** [enhance_cost_analysis_with_duckduckgo] *)

Record duckduckgo_insights_t := {
  dd_hotel_prices : list string;
  dd_food_prices : list string;
  dd_transport_prices : list string;
  dd_activity_prices : list string;
  dd_local_insights : insights;
  dd_weather_insights : insights;
  dd_travel_alerts : insights
}.

Record cost_analysis_t := {
  sources : source_results;
  final_estimates : final_estimates_t;
  duckduckgo_insights : option duckduckgo_insights_t
}.

(** [data_sources.append(tag)] on the list held by [final_estimates]. *)
Definition append_source (fe : final_estimates_t) (tag : string)
  : final_estimates_t :=
  {| accommodation_per_night := accommodation_per_night fe;
     food_per_day := food_per_day fe;
     transport_per_day := transport_per_day fe;
     total_per_day := total_per_day fe;
     total_trip_cost := total_trip_cost fe;
     data_sources := data_sources fe ++ [tag] |}.

Local Open Scope traced_scope.

(** No step of the body raises: the searches and [get_fallback_insights]
    catch their own exceptions, so the [except] branch is not reached.
    [final_estimates] is the six-key dictionary built by the caller, hence
    true in [if enhanced_data.get('final_estimates')]. *)
Definition enhance_cost_analysis_with_duckduckgo (w : world) (city : string)
    (cost_analysis : cost_analysis_t) : traced cost_analysis_t :=
  hotel_prices <- call (GetRealTimePricesDuckduckgo "hotel") (w_prices w "hotel") ;;
  food_prices <- call (GetRealTimePricesDuckduckgo "food") (w_prices w "food") ;;
  transport_prices <-
    call (GetRealTimePricesDuckduckgo "transport") (w_prices w "transport") ;;
  activity_prices <-
    call (GetRealTimePricesDuckduckgo "activities") (w_prices w "activities") ;;
  local_insights <- call GetLocalInsightsDuckduckgo (w_local_insights w) ;;
  weather_insights <- call GetWeatherInsightsDuckduckgo (w_weather_insights w) ;;
  travel_alerts <- call GetTravelAlertsDuckduckgo (w_travel_alerts w) ;;
  found <-
    (if negb (insights_truthy local_insights)
        && negb (insights_truthy weather_insights)
     then
       fallback_insights <- call GetFallbackInsights (get_fallback_insights city) ;;
       ret (fb_local_insights fallback_insights,
            fb_weather_insights fallback_insights)
     else ret (local_insights, weather_insights)) ;;
  let local_insights := fst found in
  let weather_insights := snd found in
  let tag :=
    if insights_truthy local_insights || insights_truthy weather_insights
    then "DuckDuckGo real-time search"%string
    else "Fallback insights"%string in
  ret {| sources := sources cost_analysis;
         final_estimates := append_source (final_estimates cost_analysis) tag;
         duckduckgo_insights :=
           Some {| dd_hotel_prices := hotel_prices;
                   dd_food_prices := food_prices;
                   dd_transport_prices := transport_prices;
                   dd_activity_prices := activity_prices;
                   dd_local_insights := local_insights;
                   dd_weather_insights := weather_insights;
                   dd_travel_alerts := travel_alerts |} |}.

(** ** [get_comprehensive_cost_analysis] *)

(** [start_date] and [end_date] only travel to the hotel adapter.  The result
    is [None] when the aggregation raises (the outer [except]). *)
Definition get_comprehensive_cost_analysis (w : world) (city : string)
    (trip_budget : Q) (num_days num_people : Z) (start_date end_date : Z)
  : traced (option cost_analysis_t) :=
  llm <- call GetRealTimeCostsLlm (w_llm w) ;;
  hotel <- call GetHotelPricesApi (w_hotel w) ;;
  food <- call GetFoodCostsApi (w_food w) ;;
  transport <- call GetTransportCostsApi (get_transport_costs_api city) ;;
  col <- call GetCostOfLivingApi (w_cost_of_living w) ;;
  let results :=
    {| llm_estimates := llm; hotel_prices := hotel; food_costs := food;
       transport_costs := transport; cost_of_living := col |} in
  match calculate_final_estimates results num_days num_people with
  | None => ret None
  | Some fe =>
      enhanced <-
        enhance_cost_analysis_with_duckduckgo w city
          {| sources := results; final_estimates := fe;
             duckduckgo_insights := None |} ;;
      ret (Some enhanced)
  end.

(** ** The budget tool: [calculate_budget_breakdown] *)

Module BudgetTool.

Record breakdown := {
  accommodation_budget : Q;
  food_budget : Q;
  travel_budget : Q;
  leisure_budget : Q;
  per_night_budget : Q;
  daily_budget : Q
}.


End BudgetTool.

(** ** [plan_trip]: validation, budget split, choice of the daily costs *)

(** The daily costs shown in the summary: the aggregated estimates, or the
    static ones when the analysis returned [None]. *)
Inductive daily_estimate :=
| FromAnalysis (fe : final_estimates_t)
| FromFallback (dc : daily_costs).

Record trip_plan := {
  num_days : Z;
  accommodation_budget : Q;
  per_night_budget : Q;
  lower_bound : Q;
  upper_bound : Q;
  food_budget : Q;
  travel_budget : Q;
  leisure_budget : Q;
  daily_costs_used : daily_estimate;
  plan_data_sources : list string
}.

(** What [plan_trip] returns: a validation message (first component of the
    tuple, the others empty), the message of the global handler
    ("Error planning trip: ..."), or the computed plan, whose rendering as
    text is not modelled. *)
Inductive plan_result :=
| Message (text : string)
| PlanningError
| Plan (p : trip_plan).

Definition rate_truthy (r : option Q) : bool :=
  truthy_opt (fun q => negb (Qeq_bool q 0)) r.

Section PlanTrip.

(** [date_parser.parse(s).date()] as a proleptic Gregorian ordinal; [None]
    when parsing raises. *)
Variable parse_date : string -> option Z.

(** [all([city, start_date, end_date, num_people, trip_budget,
    currency_code])]. *)
Definition required_inputs (city start_date end_date : string)
    (num_people : Z) (trip_budget : Q) (currency_code : string) : bool :=
  nonempty city && nonempty start_date && nonempty end_date
  && negb (num_people =? 0)%Z && negb (Qeq_bool trip_budget 0)
  && nonempty currency_code.

(** Steps 2 to 6 of [plan_trip], inside its [try]. *)
Definition plan_accepted (w : world) (city : string)
    (start_date_obj end_date_obj : Z) (num_people : Z) (trip_budget : Q)
  : traced plan_result :=
  let num_days := (end_date_obj - start_date_obj + 1)%Z in
  call GetCurrentWeather tt ;;;
  call GetWeatherForecast tt ;;;
  duckduckgo_rate <- call GetCurrencyExchangeDuckduckgo (w_duckduckgo_rate w) ;;
  (if rate_truthy duckduckgo_rate then ret tt else call GetExchangeRate tt) ;;;
  let accommodation_budget := trip_budget * (5 # 10) in
  match py_div accommodation_budget (inject_Z num_days) with
  | None => ret PlanningError
  | Some per_night_budget =>
      let lower_bound := per_night_budget * (9 # 10) in
      let upper_bound := per_night_budget * (11 # 10) in
      let food_budget := trip_budget * (2 # 10) in
      let travel_budget := trip_budget * (1 # 10) in
      let leisure_budget := trip_budget * (2 # 10) in
      itinerary <- call OrchestrateItinerary (w_itinerary w) ;;
      match itinerary with
      | None => ret PlanningError
      | Some _ =>
          cost_analysis <-
            get_comprehensive_cost_analysis w city trip_budget num_days
              num_people start_date_obj end_date_obj ;;
          let chosen :=
            match cost_analysis with
            | Some ca =>
                (FromAnalysis (final_estimates ca),
                 data_sources (final_estimates ca))
            | None =>
                (FromFallback
                   (estimate_daily_costs city trip_budget num_days num_people),
                 ["Basic estimates"%string])
            end in
          call GetTripadvisorHotels tt ;;;
          call (GetGooglePlaces "lodging") tt ;;;
          call (GetGooglePlaces "restaurant") tt ;;;
          ret (Plan {| num_days := num_days;
                       accommodation_budget := accommodation_budget;
                       per_night_budget := per_night_budget;
                       lower_bound := lower_bound;
                       upper_bound := upper_bound;
                       food_budget := food_budget;
                       travel_budget := travel_budget;
                       leisure_budget := leisure_budget;
                       daily_costs_used := fst chosen;
                       plan_data_sources := snd chosen |})
      end
  end.

Definition plan_trip (w : world) (city start_date end_date : string)
    (num_people : Z) (interests : string) (trip_budget : Q)
    (currency_code : string) : traced plan_result :=
  if negb (required_inputs city start_date end_date num_people trip_budget
             currency_code)
  then ret (Message "Please fill out all required inputs.")
  else
    match parse_date start_date, parse_date end_date with
    | Some start_date_obj, Some end_date_obj =>
        if (end_date_obj <? start_date_obj)%Z
        then ret (Message "End date must be after start date.")
        else plan_accepted w city start_date_obj end_date_obj num_people
               trip_budget
    | _, _ =>
        ret (Message
               "Please enter valid dates in YYYY-MM-DD format (e.g., 2024-06-15).")
    end.

End PlanTrip.

Local Close Scope traced_scope.

(** ** Notions used in the statements, and sample data *)

(** The per-day transport rate the static table gives a city. *)
Definition transport_rate (city : string) : Z :=
  match dict_get transport_estimates (city_key city) with
  | Some cost => cost
  | None => 8%Z
  end.

(** The sources when no live adapter and no LLM reply is available. *)
Definition no_live_sources (city : string) : source_results :=
  {| llm_estimates := None; hotel_prices := None; food_costs := None;
     transport_costs := get_transport_costs_api city;
     cost_of_living := None |}.

(** The [results] dictionary the aggregation works on. *)
Definition analysis_sources (w : world) (city : string) : source_results :=
  {| llm_estimates := w_llm w; hotel_prices := w_hotel w;
     food_costs := w_food w;
     transport_costs := get_transport_costs_api city;
     cost_of_living := w_cost_of_living w |}.

Definition source_calls : list adapter_call :=
  [ GetRealTimeCostsLlm; GetHotelPricesApi; GetFoodCostsApi;
    GetTransportCostsApi; GetCostOfLivingApi ].

(** A world in which every network source stays silent. *)
Definition silent_world : world :=
  {| w_llm := None; w_hotel := None; w_food := None;
     w_cost_of_living := None; w_prices := fun _ => [];
     w_local_insights := []; w_weather_insights := [];
     w_travel_alerts := []; w_duckduckgo_rate := None;
     w_itinerary := Some "{}"%string |}.

(** A world whose only answer is an LLM reply without the cost fields. *)
Definition broken_llm_world : world :=
  {| w_llm := Some (JObj [ ("currency", JStr "USD") ]%string);
     w_hotel := None; w_food := None;
     w_cost_of_living := None; w_prices := fun _ => [];
     w_local_insights := []; w_weather_insights := [];
     w_travel_alerts := []; w_duckduckgo_rate := None;
     w_itinerary := Some "{}"%string |}.

(** Three hotels at 100, 100 and 101 USD, seven restaurants whose estimated
    meal costs add up to 165 USD, and no LLM reply. *)
Definition priced_sources (city : string) : source_results :=
  {| llm_estimates := None;
     hotel_prices :=
       Some {| average_price := 301 / 3; price_range := "$100 - $101";
               hotel_count := 3 |};
     food_costs :=
       Some {| average_meal_cost := 165 / 7;
               daily_food_cost := 165 / 7 * 3; restaurant_count := 7 |};
     transport_costs := get_transport_costs_api city;
     cost_of_living := None |}.

(** Who supplies a category, by the conditions of the aggregation. *)
Inductive winner :=
| HotelApi
| RestaurantApi
| StaticTransportTable
| LlmResearch
| GenericDefault.

Definition accommodation_winner (results : source_results) : winner :=
  match hotel_prices results with
  | Some _ => HotelApi
  | None =>
      if llm_truthy (llm_estimates results) then LlmResearch else GenericDefault
  end.

Definition food_winner (results : source_results) : winner :=
  match food_costs results with
  | Some _ => RestaurantApi
  | None =>
      if llm_truthy (llm_estimates results) then LlmResearch else GenericDefault
  end.

Definition transport_winner (results : source_results) : winner :=
  match transport_costs results with
  | Some _ => StaticTransportTable
  | None =>
      if llm_truthy (llm_estimates results) then LlmResearch else GenericDefault
  end.

(** A world in which every source answers: a hotel average of 120, a daily
    food cost of 45, an LLM reply with its own three estimates, and search
    results. *)
Definition answering_world : world :=
  {| w_llm :=
       Some (JObj [ ("accommodation_per_night", JNum 150);
                    ("food_per_day", JNum 50);
                    ("transport_per_day", JNum 20) ]%string);
     w_hotel :=
       Some {| average_price := 120; price_range := "$100 - $140";
               hotel_count := 5 |};
     w_food :=
       Some {| average_meal_cost := 15; daily_food_cost := 45;
               restaurant_count := 10 |};
     w_cost_of_living := None;
     w_prices := fun _ => [ "Prices: see listing"%string ];
     w_local_insights := [ "best time to visit Paris"%string ];
     w_weather_insights := [ "climate Paris"%string ];
     w_travel_alerts := [];
     w_duckduckgo_rate := Some (83 # 1);
     w_itinerary := Some "{}"%string |}.

(** What the plan records about the trip window and the budget split. *)
Definition plan_fields (p : trip_plan) (trip_budget : Q)
    (start_date_obj end_date_obj : Z) : Prop :=
  num_days p = (end_date_obj - start_date_obj + 1)%Z
  /\ accommodation_budget p = trip_budget * (5 # 10)
  /\ food_budget p = trip_budget * (2 # 10)
  /\ travel_budget p = trip_budget * (1 # 10)
  /\ leisure_budget p = trip_budget * (2 # 10)
  /\ per_night_budget p
     = trip_budget * (5 # 10) / inject_Z (end_date_obj - start_date_obj + 1)
  /\ lower_bound p = per_night_budget p * (9 # 10)
  /\ upper_bound p = per_night_budget p * (11 # 10).

(** Two dates with their ordinals, standing in for the date parser. *)
Definition sample_dates : list (string * Z) :=
  [ ("2024-06-15", 739052); ("2024-06-20", 739057) ]%Z%string.

Definition parse_sample (s : string) : option Z := dict_get sample_dates s.

(** A request the validation of [plan_trip] lets through. *)
Definition accepted (parse_date : string -> option Z)
    (city start_date end_date currency_code : string) (num_people : Z)
    (trip_budget : Q) (start_date_obj end_date_obj : Z) : Prop :=
  required_inputs city start_date end_date num_people trip_budget
    currency_code = true
  /\ parse_date start_date = Some start_date_obj
  /\ parse_date end_date = Some end_date_obj
  /\ (start_date_obj <= end_date_obj)%Z.

(** * More of the planner *)

(** ** The budget summary of [plan_trip] *)

(** [daily_costs.get('daily_accommodation',
    daily_costs.get('accommodation_per_night', 0))]: the static estimates
    carry the first key, the aggregated ones the second. *)
Definition summary_accommodation (daily_costs : daily_estimate) : Q :=
  match daily_costs with
  | FromFallback dc => daily_accommodation dc
  | FromAnalysis fe => accommodation_per_night fe
  end.

Definition summary_food (daily_costs : daily_estimate) : Q :=
  match daily_costs with
  | FromFallback dc => daily_food dc
  | FromAnalysis fe => food_per_day fe
  end.

(** [daily_costs.get('transport_per_day', 8 * num_people)]: the static
    estimates have no such key. *)
Definition summary_transport (daily_costs : daily_estimate) (num_people : Z)
  : Q :=
  match daily_costs with
  | FromFallback _ => inject_Z (8 * num_people)
  | FromAnalysis fe => transport_per_day fe
  end.

(** [daily_costs.get('total_daily', daily_costs.get('total_per_day', 0))]. *)
Definition summary_total (daily_costs : daily_estimate) : Q :=
  match daily_costs with
  | FromFallback dc => total_daily dc
  | FromAnalysis fe => total_per_day fe
  end.

(** The numbers of the "Real-Time Cost Analysis" and "Budget Analysis"
    blocks, before they are printed with two decimals. *)
Record summary_numbers := {
  shown_accommodation : Q;
  shown_food : Q;
  shown_transport : Q;
  shown_total : Q;
  shown_trip_cost : Q;
  shown_daily_budget : Q;
  within_budget : bool
}.

(** [None] is a division by zero, which the global handler of [plan_trip]
    would catch; [num_days] is at least 1 there. *)
Definition budget_summary (daily_costs : daily_estimate) (trip_budget : Q)
    (num_days num_people : Z) : option summary_numbers :=
  match py_div trip_budget (inject_Z num_days) with
  | None => None
  | Some daily_budget =>
      Some {| shown_accommodation := summary_accommodation daily_costs;
              shown_food := summary_food daily_costs;
              shown_transport := summary_transport daily_costs num_people;
              shown_total := summary_total daily_costs;
              shown_trip_cost := summary_total daily_costs * inject_Z num_days;
              shown_daily_budget := daily_budget;
              within_budget :=
                Qle_bool (summary_total daily_costs) daily_budget |}
  end.

(** ** The price filter of [get_tripadvisor_hotels] *)



(** ** [get_google_places] and [get_food_costs_api] *)

Module GooglePlaces.

(** One result of the nearby search.  Name, rating and address are copied
    to the output unchanged and are not modelled; [price_level] is absent
    ([None]) or an integer. *)
Record raw_place := { raw_price_level : option Z }.

(** One entry of the returned list: the price text and the estimated cost,
    ['N/A'] being [None]. *)
Record place := { price_level : string; estimated_cost : option Z }.

Definition is_restaurant (place_type : string) : bool :=
  String.eqb place_type "restaurant".

Definition convert_place (place_type : string) (p : raw_place) : place :=
  match raw_price_level p with
  | Some 0%Z => {| price_level := "Free"; estimated_cost := Some 0%Z |}
  | Some 1%Z =>
      {| price_level := "$";
         estimated_cost :=
           Some (if is_restaurant place_type then 15 else 50)%Z |}
  | Some 2%Z =>
      {| price_level := "$$";
         estimated_cost :=
           Some (if is_restaurant place_type then 30 else 100)%Z |}
  | Some 3%Z =>
      {| price_level := "$$$";
         estimated_cost :=
           Some (if is_restaurant place_type then 60 else 200)%Z |}
  | Some 4%Z =>
      {| price_level := "$$$$";
         estimated_cost :=
           Some (if is_restaurant place_type then 100 else 400)%Z |}
  | _ => {| price_level := "N/A"; estimated_cost := None |}
  end.

(** [answer] is what the geocoding and the nearby search give: [None] when
    the city is not found or a call raises, else the result list. *)
Definition get_google_places (answer : option (list raw_place))
    (place_type : string) (max_results : nat) : list place :=
  match answer with
  | None => []
  | Some results => map (convert_place place_type) (firstn max_results results)
  end.

(** One turn of the loop over the restaurants: (total_cost,
    valid_restaurants). *)
Definition count_restaurant (acc : Z * Z) (restaurant : place) : Z * Z :=
  match estimated_cost restaurant with
  | Some cost => (fst acc + cost, snd acc + 1)%Z
  | None => acc
  end.

Definition get_food_costs_api (answer : option (list raw_place))
  : option food_costs_t :=
  let google_hotels := get_google_places answer "restaurant" 10 in
  match google_hotels with
  | [] => None
  | _ =>
      let (total_cost, valid_restaurants) :=
        fold_left count_restaurant google_hotels (0, 0)%Z in
      if (0 <? valid_restaurants)%Z then
        let avg_meal_cost := inject_Z total_cost / inject_Z valid_restaurants in
        Some {| average_meal_cost := avg_meal_cost;
                daily_food_cost := avg_meal_cost * 3;
                restaurant_count := valid_restaurants |}
      else None
  end.

End GooglePlaces.
Import GooglePlaces.

(** ** [get_hotel_prices_api] *)

Module HotelPrices.

(** [j.get(key, default)]: [AttributeError] ([None]) unless [j] is an
    object. *)
Definition json_get (j : json) (key : string) (default : json) : option json :=
  match j with
  | JObj fields =>
      Some (match dict_get fields key with Some v => v | None => default end)
  | _ => None
  end.

(** [hotel.get("price_breakdown", {}).get("gross_price", 0)], as the number
    that [price > 0] needs. *)
Definition gross_price (hotel : json) : option Q :=
  match json_get hotel "price_breakdown" (JObj []) with
  | None => None
  | Some breakdown =>
      match json_get breakdown "gross_price" (JNum 0) with
      | None => None
      | Some price => json_number price
      end
  end.

(** The loop over the hotels: the positive prices, in order; [None] when a
    step raises. *)
Fixpoint collect_prices (hotels : list json) : option (list Q) :=
  match hotels with
  | [] => Some []
  | hotel :: rest =>
      match gross_price hotel, collect_prices rest with
      | Some price, Some prices =>
          Some (if Qltb 0 price then price :: prices else prices)
      | _, _ => None
      end
  end.

(** [sum(prices)]. *)
Definition py_sum (prices : list Q) : Q := fold_left Qplus prices 0.

(** [min(prices)] and [max(prices)] of a non-empty list. *)
Definition list_min (first : Q) (rest : list Q) : Q := fold_left py_min rest first.
Definition list_max (first : Q) (rest : list Q) : Q := fold_left py_max rest first.

(** [f"{x:.0f}"] for a non-negative number. *)
Definition format_0f (x : Q) : string :=
  DecimalString.NilZero.string_of_int (Z.to_int (round_half_even x)).

(** The prices the average is taken over: those of the first five hotels of
    ["result"] that are positive.  [response] is the decoded body of a
    reply with status 200, [None] for any other reply or a failed request. *)
Definition counted_prices (response : option json) : option (list Q) :=
  match response with
  | None => None
  | Some data =>
      match json_get data "result" (JArr []) with
      | None => None
      | Some hotels =>
          if json_truthy hotels then
            match hotels with
            | JArr items => collect_prices (firstn 5 items)
            | _ => None
            end
          else Some []
      end
  end.

Definition get_hotel_prices_api (response : option json)
  : option hotel_prices_t :=
  match counted_prices response with
  | Some (first :: rest) =>
      let prices := first :: rest in
      Some {| average_price := py_sum prices / inject_Z (Z.of_nat (length prices));
              price_range :=
                ("$" ++ format_0f (list_min first rest) ++ " - $"
                 ++ format_0f (list_max first rest))%string;
              hotel_count := Z.of_nat (length prices) |}
  | _ => None
  end.

End HotelPrices.
Import HotelPrices.

(** ** DuckDuckGo searches with retry *)

Module Search.

(** The [for] loop of [search_duckduckgo_with_retry].  [search k] is what
    the [k]-th call of [search_duckduckgo] for the query returns; that
    function catches every exception and returns the empty list on failure
    or timeout, so the [except] branch of the loop, and its sleep, is never
    reached.  The second component is the number of calls made. *)
Fixpoint retry_loop {A : Type} (search : nat -> list A)
    (attempt remaining : nat) : list A * nat :=
  match remaining with
  | O => ([], attempt)
  | S remaining' =>
      match search attempt with
      | [] => retry_loop search (S attempt) remaining'
      | results => (results, S attempt)
      end
  end.

(** [for attempt in range(max_retries + 1)]. *)
Definition search_duckduckgo_with_retry {A : Type} (search : nat -> list A)
    (max_retries : nat) : list A * nat :=
  retry_loop search 0 (max_retries + 1).

(** [insights[query] = ...] on a dictionary kept as its list of keys. *)
Definition set_key (d : insights) (query : string) : insights :=
  if existsb (String.eqb query) d then d else d ++ [query].

(** The loop over the queries of the three insight functions: a query gets
    a key when its search, retried once, returns something.  [search q k]
    is the [k]-th answer for query [q]. *)
Definition collect_insights (search : string -> nat -> list string)
    (queries : list string) : insights :=
  fold_left
    (fun insights query =>
       match fst (search_duckduckgo_with_retry (search query) 1) with
       | [] => insights
       | _ => set_key insights query
       end)
    queries [].

Definition local_queries (city : string) : list string :=
  [ "best time to visit " ++ city; "travel tips " ++ city;
    "must visit " ++ city ]%string.

Definition weather_queries (city : string) : list string :=
  [ "weather " ++ city ++ " best time"; "climate " ++ city ]%string.

Definition alert_queries (city : string) : list string :=
  [ "travel alerts " ++ city; "travel warnings " ++ city ]%string.

Definition get_local_insights_duckduckgo
    (search : string -> nat -> list string) (city : string) : insights :=
  collect_insights search (local_queries city).

Definition get_weather_insights_duckduckgo
    (search : string -> nat -> list string) (city : string) : insights :=
  collect_insights search (weather_queries city).

Definition get_travel_alerts_duckduckgo
    (search : string -> nat -> list string) (city : string) : insights :=
  collect_insights search (alert_queries city).

End Search.
Import Search.

(** ** Finding the JSON of an itinerary *)

Module Itinerary.

(** [s.find(c)] and [s.rfind(c)] for one character: [None] is -1. *)
Fixpoint find (c : ascii) (s : string) : option nat :=
  match s with
  | EmptyString => None
  | String a s' => if Ascii.eqb a c then Some 0%nat else option_map S (find c s')
  end.

Fixpoint rfind (c : ascii) (s : string) : option nat :=
  match s with
  | EmptyString => None
  | String a s' =>
      match rfind c s' with
      | Some j => Some (S j)
      | None => if Ascii.eqb a c then Some 0%nat else None
      end
  end.

(** [s[start:stop]] for indices that are not negative. *)
Definition slice (s : string) (start stop : nat) : string :=
  substring start (stop - start) s.

(** [s.startswith('{')]. *)
Definition startswith_brace (s : string) : bool :=
  match s with
  | String a _ => Ascii.eqb a "{"
  | EmptyString => false
  end.

Inductive debug_status :=
| NoText
| StartsWithJson
| NoOpeningBrace
| NoClosingBrace
| InvalidBracePositions
| ValidJsonAt (start_idx end_idx : nat)
| JsonParsingError.

(** The six rows of a day. *)
Inductive slot := Morning | Lunch | Afternoon | Evening | Dinner | Night.

Definition all_slots : list slot :=
  [ Morning; Lunch; Afternoon; Evening; Dinner; Night ].

Definition slot_key (s : slot) : string :=
  match s with
  | Morning => "morning" | Lunch => "lunch" | Afternoon => "afternoon"
  | Evening => "evening" | Dinner => "dinner" | Night => "night"
  end.

Definition slot_default (s : slot) : string :=
  match s with
  | Lunch => "No lunch planned"
  | Dinner => "No dinner planned"
  | _ => "No activity planned"
  end.

(** One row of the table; the day label is ["Day " + str(day_num)] and the
    two fixed label columns follow from the slot. *)
Record csv_row := { row_day : json; row_slot : slot; row_description : json }.

(** The rows of one element of ["days"]: [AttributeError] ([None]) unless it
    is an object. *)
Definition day_rows (day_data : json) : option (list csv_row) :=
  match day_data with
  | JObj fields =>
      let get key default :=
        match dict_get fields key with Some v => v | None => default end in
      let day_num := get "day"%string (JStr "N/A") in
      Some (map (fun s =>
                   {| row_day := day_num; row_slot := s;
                      row_description :=
                        get (slot_key s) (JStr (slot_default s)) |})
              all_slots)
  | _ => None
  end.

(** What [for day_data in days] iterates over: the items of a list, the
    keys of an object, the characters of a string; [TypeError] ([None])
    for the other values. *)
Definition iterate (days : json) : option (list json) :=
  match days with
  | JArr items => Some items
  | JObj fields => Some (map (fun kv => JStr (fst kv)) fields)
  | JStr s =>
      Some (map (fun c => JStr (String c EmptyString)) (list_ascii_of_string s))
  | _ => None
  end.

Fixpoint all_day_rows (items : list json) : option (list csv_row) :=
  match items with
  | [] => Some []
  | day_data :: rest =>
      match day_rows day_data, all_day_rows rest with
      | Some rows, Some more => Some (rows ++ more)
      | _, _ => None
      end
  end.

Section Loads.

(** [json.loads]; [None] is [JSONDecodeError]. *)
Variable loads : string -> option json.

Definition extract_json_from_formatted_itinerary (formatted_text : string)
  : option string :=
  match find "{" formatted_text, rfind "}" formatted_text with
  | Some start_idx, Some end_idx =>
      let json_part := slice formatted_text start_idx (end_idx + 1) in
      match loads json_part with
      | Some _ => Some json_part
      | None => None
      end
  | _, _ => None
  end.

Definition debug_itinerary_format (itinerary_text : string) : debug_status :=
  if negb (nonempty itinerary_text) || negb (nonempty (strip itinerary_text))
  then NoText
  else
    let cleaned_text := strip itinerary_text in
    if startswith_brace cleaned_text then StartsWithJson
    else
      match find "{" cleaned_text with
      | None => NoOpeningBrace
      | Some start_idx =>
          match rfind "}" cleaned_text with
          | None => NoClosingBrace
          | Some end_idx =>
              if (end_idx <=? start_idx)%nat then InvalidBracePositions
              else
                match loads (slice cleaned_text start_idx (end_idx + 1)) with
                | Some _ => ValidJsonAt start_idx end_idx
                | None => JsonParsingError
                end
          end
      end.

(** The cleaning shared by the three CSV functions; [None] is their
    "no data" / "no valid JSON" answer. *)
Definition clean_itinerary_text (itinerary_text : string) : option string :=
  if negb (nonempty itinerary_text) || negb (nonempty (strip itinerary_text))
  then None
  else
    let cleaned_text := strip itinerary_text in
    if startswith_brace cleaned_text then Some cleaned_text
    else
      match find "{" cleaned_text, rfind "}" cleaned_text with
      | Some start_idx, Some end_idx =>
          Some (slice cleaned_text start_idx (end_idx + 1))
      | _, _ => None
      end.

Definition convert_itinerary_to_csv_data (itinerary_text : string)
  : option (list csv_row) :=
  match clean_itinerary_text itinerary_text with
  | None => None
  | Some cleaned_text =>
      match loads cleaned_text with
      | Some (JObj fields) =>
          match dict_get fields "days" with
          | None => None
          | Some days =>
              match iterate days with
              | Some items => all_day_rows items
              | None => None
              end
          end
      | _ => None
      end
  end.

End Loads.

End Itinerary.
Import Itinerary.

(** The world whose three insight answers are what the searches give. *)
Definition searching_world (search : string -> nat -> list string)
    (city : string) (base : world) : world :=
  {| w_llm := w_llm base; w_hotel := w_hotel base; w_food := w_food base;
     w_cost_of_living := w_cost_of_living base; w_prices := w_prices base;
     w_local_insights := get_local_insights_duckduckgo search city;
     w_weather_insights := get_weather_insights_duckduckgo search city;
     w_travel_alerts := get_travel_alerts_duckduckgo search city;
     w_duckduckgo_rate := w_duckduckgo_rate base;
     w_itinerary := w_itinerary base |}.

(** ** Notions used in the further properties *)

(** A string that is empty or starts with a character that is kept. *)
Definition starts_kept (s : string) : Prop :=
  match s with
  | EmptyString => True
  | String c _ => is_space c = false
  end.


(** The searches of the enhancement, and the static insights it reads when
    the live insights are empty. *)
Definition search_calls : list adapter_call :=
  [ GetRealTimePricesDuckduckgo "hotel"; GetRealTimePricesDuckduckgo "food";
    GetRealTimePricesDuckduckgo "transport";
    GetRealTimePricesDuckduckgo "activities";
    GetLocalInsightsDuckduckgo; GetWeatherInsightsDuckduckgo;
    GetTravelAlertsDuckduckgo ]%string.

Definition insight_calls (w : world) : list adapter_call :=
  if insights_truthy (w_local_insights w)
     || insights_truthy (w_weather_insights w)
  then [] else [GetFallbackInsights].

(** A traced computation that only appends to the log it is given, and
    whose result does not depend on that log. *)
Definition appends {A : Type} (m : traced A) : Prop :=
  forall log, m log = (fst (m []), log ++ snd (m [])).

(** The calls of [plan_trip] before and after the cost analysis. *)
Definition opening_calls (w : world) : list adapter_call :=
  [ GetCurrentWeather; GetWeatherForecast; GetCurrencyExchangeDuckduckgo ]
  ++ (if rate_truthy (w_duckduckgo_rate w) then [] else [GetExchangeRate])
  ++ [ OrchestrateItinerary ].

Definition closing_calls : list adapter_call :=
  [ GetTripadvisorHotels; GetGooglePlaces "lodging";
    GetGooglePlaces "restaurant" ]%string.

(** The daily costs and the source list [plan_trip] settles on. *)
Definition chosen_costs (city : string) (trip_budget : Q)
    (num_days num_people : Z) (cost_analysis : option cost_analysis_t)
  : daily_estimate * list string :=
  match cost_analysis with
  | Some ca =>
      (FromAnalysis (final_estimates ca), data_sources (final_estimates ca))
  | None =>
      (FromFallback (estimate_daily_costs city trip_budget num_days num_people),
       ["Basic estimates"%string])
  end.

(** A place the sample cannot price: no price level, or one outside 0..4. *)
Definition unpriced (p : raw_place) : Prop :=
  match raw_price_level p with
  | Some z => (z < 0 \/ 4 < z)%Z
  | None => True
  end.


(** [isinstance(j, dict)]. *)
Definition is_object (j : json) : bool :=
  match j with JObj _ => true | _ => false end.

(** * Properties *)

(** ** Sample evaluations *)

Example city_key_trims_and_lowers :
  city_key "  New York "%string = "new york"%string.
Proof. reflexivity. Qed.

Example transport_lookup_unlisted :
  option_map daily_transport_cost (get_transport_costs_api "Lisbon")
  = Some 8%Z.
Proof. reflexivity. Qed.

(** The calls of one aggregation when every search comes back empty: the
    five sources, the seven searches, then the static insights. *)
Example silent_analysis_log :
  snd (run (get_comprehensive_cost_analysis silent_world "Goa" 1000 5 2 0 4))
  = source_calls
    ++ [ GetRealTimePricesDuckduckgo "hotel";
         GetRealTimePricesDuckduckgo "food";
         GetRealTimePricesDuckduckgo "transport";
         GetRealTimePricesDuckduckgo "activities";
         GetLocalInsightsDuckduckgo; GetWeatherInsightsDuckduckgo;
         GetTravelAlertsDuckduckgo; GetFallbackInsights ]%string.
Proof. vm_compute. reflexivity. Qed.

(** An LLM reply without the field that is needed makes the aggregation
    raise, and [plan_trip] falls back to the static estimates. *)
Example broken_llm_reply :
  calculate_final_estimates (analysis_sources broken_llm_world "Paris") 6 2
  = None.
Proof. reflexivity. Qed.

Example plan_falls_back :
  match fst (run (plan_trip parse_sample broken_llm_world "Paris"
                    "2024-06-15" "2024-06-20" 2 "museums" 1000 "EUR")) with
  | Plan p =>
      plan_data_sources p = [ "Basic estimates"%string ]
      /\ daily_costs_used p
         = FromFallback (estimate_daily_costs "Paris" 1000 6 2)
  | _ => False
  end.
Proof. lazy. split; reflexivity. Qed.

Example estimate_paris_310 :
  let r := estimate_daily_costs "Paris" 310 3 1 in
  daily_accommodation r == 7820 # 100 /\ daily_food r == 2514 # 100 /\
  total_daily r == 10333 # 100.
Proof. vm_compute. repeat split. Qed.

Example estimate_paris_1000 :
  let r := estimate_daily_costs " PARIS " 1000 5 2 in
  daily_accommodation r == 15135 # 100 /\ daily_food r == 4865 # 100 /\
  total_daily r == 200.
Proof. vm_compute. repeat split. Qed.

(** ** Numeric lemmas *)

Lemma Qltb_true (a b : Q) : Qltb a b = true <-> a < b.
Proof.
  unfold Qltb. rewrite negb_true_iff.
  split; intro H.
  - apply Qnot_le_lt. intro Hle. apply Qle_bool_iff in Hle. congruence.
  - destruct (Qle_bool b a) eqn:E; [|reflexivity].
    apply Qle_bool_iff in E. lra.
Qed.

Lemma Qltb_false (a b : Q) : Qltb a b = false <-> b <= a.
Proof.
  unfold Qltb. rewrite negb_false_iff. apply Qle_bool_iff.
Qed.

Lemma py_div_nonzero (a b : Q) : ~ b == 0 -> py_div a b = Some (a / b).
Proof.
  intro H. unfold py_div.
  destruct (Qeq_bool b 0) eqn:E; [|reflexivity].
  apply Qeq_bool_iff in E. contradiction.
Qed.

Lemma py_min_bounds (a b : Q) : py_min a b <= a /\ py_min a b <= b.
Proof.
  unfold py_min. destruct (Qltb b a) eqn:E.
  - apply Qltb_true in E. lra.
  - apply Qltb_false in E. lra.
Qed.

Lemma py_max_bounds (a b : Q) : a <= py_max a b /\ b <= py_max a b.
Proof.
  unfold py_max. destruct (Qltb a b) eqn:E.
  - apply Qltb_true in E. lra.
  - apply Qltb_false in E. lra.
Qed.

Lemma py_min_cases (a b : Q) : py_min a b = a \/ py_min a b = b.
Proof. unfold py_min. destruct (Qltb b a); auto. Qed.

Lemma py_max_cases (a b : Q) : py_max a b = a \/ py_max a b = b.
Proof. unfold py_max. destruct (Qltb a b); auto. Qed.

(** The integer rounding is at most one half away. *)
Lemma round_half_even_error (x : Q) :
  - (1 # 2) <= inject_Z (round_half_even x) - x <= 1 # 2.
Proof.
  unfold round_half_even. cbv zeta.
  pose proof (Qfloor_le x) as Hlo.
  pose proof (Qlt_floor x) as Hhi.
  rewrite inject_Z_plus in Hhi. change (inject_Z 1) with 1 in Hhi.
  set (f := Qfloor x) in *. clearbody f.
  destruct (Qcompare (x - inject_Z f) (1 # 2)) eqn:E.
  - apply Qeq_alt in E.
    destruct (Z.even f); [|rewrite inject_Z_plus; change (inject_Z 1) with 1];
      lra.
  - apply Qlt_alt in E. lra.
  - apply Qgt_alt in E. rewrite inject_Z_plus. change (inject_Z 1) with 1. lra.
Qed.

Lemma round_half_even_inject_Z (z : Z) : round_half_even (inject_Z z) = z.
Proof.
  unfold round_half_even. cbv zeta. rewrite Qfloor_Z.
  assert (E : Qcompare (inject_Z z - inject_Z z) (1 # 2) = Lt).
  { rewrite <- Qlt_alt. generalize (inject_Z z). intro q. lra. }
  rewrite E. reflexivity.
Qed.

Lemma round_half_even_eq (x y : Q) :
  x == y -> round_half_even x = round_half_even y.
Proof.
  intro H. unfold round_half_even. cbv zeta.
  rewrite (Qfloor_comp _ _ H).
  assert (E : Qcompare (x - inject_Z (Qfloor y)) (1 # 2)
              = Qcompare (y - inject_Z (Qfloor y)) (1 # 2)).
  { apply Qcompare_comp; [rewrite H|]; reflexivity. }
  rewrite E. reflexivity.
Qed.

Lemma round2_eq (x y : Q) : x == y -> round2 x == round2 y.
Proof.
  intro H. unfold round2.
  rewrite (round_half_even_eq (x * 100) (y * 100)); [reflexivity|].
  rewrite H. reflexivity.
Qed.

(** [round(x, 2)] moves a value by at most half a cent. *)
Lemma round2_error (x : Q) : - (1 # 200) <= round2 x - x <= 1 # 200.
Proof.
  unfold round2.
  pose proof (round_half_even_error (x * 100)) as H.
  set (k := inject_Z (round_half_even (x * 100))) in *. clearbody k.
  assert (E : k / 100 == k * (1 # 100)) by (field).
  rewrite E. lra.
Qed.

(** An integer amount is left as it is. *)
Lemma round2_inject_Z (z : Z) : round2 (inject_Z z) == inject_Z z.
Proof.
  unfold round2.
  assert (E : inject_Z z * 100 == inject_Z (z * 100)).
  { rewrite inject_Z_mult. reflexivity. }
  rewrite (round_half_even_eq _ _ E), round_half_even_inject_Z.
  rewrite inject_Z_mult. field.
Qed.

Lemma round_half_even_nonneg (x : Q) : 0 <= x -> (0 <= round_half_even x)%Z.
Proof.
  intro H.
  assert (Hf : (0 <= Qfloor x)%Z).
  { change 0%Z with (Qfloor 0). apply Qfloor_resp_le. exact H. }
  unfold round_half_even. cbv zeta.
  destruct (Qcompare (x - inject_Z (Qfloor x)) (1 # 2));
    [destruct (Z.even (Qfloor x))| |]; lia.
Qed.

Lemma round2_nonneg (x : Q) : 0 <= x -> 0 <= round2 x.
Proof.
  intro H. unfold round2.
  assert (Hk : (0 <= round_half_even (x * 100))%Z).
  { apply round_half_even_nonneg. nra. }
  rewrite Zle_Qle in Hk.
  set (k := inject_Z (round_half_even (x * 100))) in *. clearbody k.
  assert (E : k / 100 == k * (1 # 100)) by (field).
  rewrite E. change (inject_Z 0) with 0 in Hk. lra.
Qed.

(** A stored amount is a whole number of cents. *)
Lemma round2_cents (x : Q) : round2 x * 100 == inject_Z (round_half_even (x * 100)).
Proof. unfold round2. field. Qed.

(** Rounding a sum against summing rounded parts: two and three parts. *)
Lemma round2_sum2 (a b : Q) :
  Qabs (round2 (a + b) - (round2 a + round2 b)) <= 1 # 100.
Proof.
  pose proof (round2_error a) as Ha.
  pose proof (round2_error b) as Hb.
  pose proof (round2_error (a + b)) as Hs.
  pose proof (round2_cents a) as Ca.
  pose proof (round2_cents b) as Cb.
  pose proof (round2_cents (a + b)) as Cs.
  set (ka := round_half_even (a * 100)) in *.
  set (kb := round_half_even (b * 100)) in *.
  set (ks := round_half_even ((a + b) * 100)) in *.
  clearbody ka kb ks.
  assert (Hd : (-1 <= ks - (ka + kb) <= 1)%Z).
  { assert (Hq : - (3 # 2) <= inject_Z (ks - (ka + kb)) <= 3 # 2).
    { unfold Zminus. rewrite !inject_Z_plus, inject_Z_opp, inject_Z_plus.
      rewrite <- Ca, <- Cb, <- Cs. lra. }
    destruct Hq as [Hq1 Hq2].
    assert (H1 : inject_Z (-2) < inject_Z (ks - (ka + kb))).
    { change (inject_Z (-2)) with (-2 # 1). lra. }
    assert (H2 : inject_Z (ks - (ka + kb)) < inject_Z 2).
    { change (inject_Z 2) with (2 # 1). lra. }
    rewrite <- Zlt_Qlt in H1, H2. lia. }
  destruct Hd as [Hd1 Hd2].
  rewrite Zle_Qle in Hd1, Hd2.
  unfold Zminus in Hd1, Hd2.
  rewrite !inject_Z_plus, inject_Z_opp, inject_Z_plus in Hd1, Hd2.
  rewrite <- Ca, <- Cb, <- Cs in Hd1, Hd2.
  change (inject_Z (-1)) with (-1 # 1) in Hd1.
  change (inject_Z 1) with (1 # 1) in Hd2.
  apply Qabs_Qle_condition. lra.
Qed.

Lemma round2_sum3 (a b c : Q) :
  Qabs (round2 (a + b + c) - (round2 a + round2 b + round2 c)) <= 2 # 100.
Proof.
  pose proof (round2_error a).
  pose proof (round2_error b).
  pose proof (round2_error c).
  pose proof (round2_error (a + b + c)).
  apply Qabs_Qle_condition. lra.
Qed.

(** ** The static tables *)

Lemma dict_get_Forall {V : Type} (P : V -> Prop) (d : list (string * V))
    (k : string) (v : V) :
  Forall (fun kv => P (snd kv)) d -> dict_get d k = Some v -> P v.
Proof.
  induction 1 as [|[k' v'] d' Hhd Htl IH]; simpl; [discriminate|].
  destruct (String.eqb k' k); [|exact IH].
  intro E. injection E as <-. exact Hhd.
Qed.

Lemma estimates_for_pos (city : string) :
  (0 < accommodation (estimates_for city))%Z /\ (0 < food (estimates_for city))%Z.
Proof.
  unfold estimates_for.
  destruct (dict_get base_estimates (city_key city)) as [e|] eqn:E.
  - apply (dict_get_Forall
             (fun e => (0 < accommodation e)%Z /\ (0 < food e)%Z) _ _ _) in E;
      [exact E|].
    unfold base_estimates. repeat constructor.
  - simpl. lia.
Qed.

Lemma transport_rate_pos (city : string) : (0 < transport_rate city)%Z.
Proof.
  unfold transport_rate.
  destruct (dict_get transport_estimates (city_key city)) as [c|] eqn:E.
  - apply (dict_get_Forall (fun c => (0 < c)%Z) _ _ _) in E; [exact E|].
    unfold transport_estimates. repeat constructor.
  - lia.
Qed.

Lemma get_transport_costs_api_rate (city : string) :
  exists t, get_transport_costs_api city = Some t
            /\ daily_transport_cost t = transport_rate city.
Proof.
  unfold get_transport_costs_api, transport_rate.
  destruct (dict_get transport_estimates (city_key city));
    eexists; split; reflexivity.
Qed.

(** ** The budget adjustment of the static fallback *)

Section Adjustment.
Variables a f b : Q.
Hypothesis baseline_pos : 0 < a + f.

Let t := a + f.

Lemma ratio_defined : py_div b t = Some (b / t).
Proof. apply py_div_nonzero. unfold t. lra. Qed.

Lemma ratio_above : t * (15 # 10) < b -> 15 # 10 < b / t.
Proof.
  intro H. apply Qlt_shift_div_l; [exact baseline_pos|].
  unfold t in *. lra.
Qed.

Lemma ratio_below : b < t * (7 # 10) -> b / t < 7 # 10.
Proof.
  intro H. apply Qlt_shift_div_r; [exact baseline_pos|].
  unfold t in *. lra.
Qed.

Lemma adjust_up :
  t * (15 # 10) < b ->
  adjust_to_budget a f b
  = Some (a * py_min (b / t) 2, f * py_min (b / t) 2)
  /\ 15 # 10 < py_min (b / t) 2 <= 2.
Proof.
  intro H. split.
  - unfold adjust_to_budget. cbv zeta. fold t.
    apply Qltb_true in H. rewrite H, ratio_defined. reflexivity.
  - pose proof (ratio_above H) as Hr.
    pose proof (py_min_bounds (b / t) 2) as [_ Hle].
    split; [|exact Hle].
    destruct (py_min_cases (b / t) 2) as [E|E]; rewrite E; lra.
Qed.

Lemma adjust_down :
  b < t * (7 # 10) ->
  adjust_to_budget a f b
  = Some (a * py_max (b / t) (1 # 2), f * py_max (b / t) (1 # 2))
  /\ 1 # 2 <= py_max (b / t) (1 # 2) < 7 # 10.
Proof.
  intro H.
  assert (Hnot : Qltb (t * (15 # 10)) b = false).
  { apply Qltb_false. unfold t in *. lra. }
  split.
  - unfold adjust_to_budget. cbv zeta. fold t.
    apply Qltb_true in H. rewrite Hnot, H, ratio_defined. reflexivity.
  - pose proof (ratio_below H) as Hr.
    pose proof (py_max_bounds (b / t) (1 # 2)) as [_ Hge].
    split; [exact Hge|].
    destruct (py_max_cases (b / t) (1 # 2)) as [E|E]; rewrite E; lra.
Qed.

Lemma adjust_none :
  t * (7 # 10) <= b <= t * (15 # 10) -> adjust_to_budget a f b = Some (a, f).
Proof.
  intros [Hlo Hhi].
  unfold adjust_to_budget. cbv zeta. fold t.
  apply Qltb_false in Hlo, Hhi. rewrite Hhi, Hlo. reflexivity.
Qed.

End Adjustment.



Lemma estimate_unrounded_adjust (city : string) (trip_budget : Q)
    (num_days num_people : Z) :
  num_days <> 0%Z ->
  estimate_unrounded city trip_budget num_days num_people
  = adjust_to_budget
      (inject_Z (accommodation (estimates_for city) * num_people))
      (inject_Z (food (estimates_for city) * num_people))
      (trip_budget / inject_Z num_days).
Proof.
  intro Hd. unfold estimate_unrounded. cbv zeta.
  rewrite py_div_nonzero; [reflexivity|].
  intro E. apply Hd.
  unfold Qeq in E. simpl in E. lia.
Qed.

(** C5 (as the code computes it). City "Paris", total budget 1000, 5 days,
    2 travellers: the baseline is 140 x 2 = 280 and 45 x 2 = 90, total 370;
    the implied daily budget is 200, below 0.7 x 370 = 259; the scale factor
    is max(200/370, 0.5) = 200/370 = 20/37 (about 0.54, not 0.5); the result
    is accommodation 151.35, food 48.65, total 200.0. *)
Theorem C5_paris_scenario :
  let e := estimates_for "Paris" in
  let acc := inject_Z (accommodation e * 2) in
  let fd := inject_Z (food e * 2) in
  let r := estimate_daily_costs "Paris" 1000 5 2 in
  accommodation e = 140%Z /\ food e = 45%Z
  /\ acc == 280 /\ fd == 90 /\ acc + fd == 370
  /\ 1000 / inject_Z 5 == 200
  /\ (370 * (7 # 10) == 259 /\ 200 < 259)
  /\ py_max (200 / 370) (1 # 2) == 20 # 37
  /\ estimate_unrounded "Paris" 1000 5 2
     = Some (acc * py_max (1000 / inject_Z 5 / (acc + fd)) (1 # 2),
             fd * py_max (1000 / inject_Z 5 / (acc + fd)) (1 # 2))
  /\ daily_accommodation r == 15135 # 100
  /\ daily_food r == 4865 # 100
  /\ total_daily r == 200
  /\ city_known r = true.
Proof.
  cbv zeta. repeat split; reflexivity.
Qed.

(** C5 as stated fails: the resolver does not return 140 / 45 / 185. *)
Lemma C5_counterexample :
  let r := estimate_daily_costs "Paris" 1000 5 2 in
  ~ (daily_accommodation r == 140 /\ daily_food r == 45 /\ total_daily r == 185)
  /\ ~ daily_accommodation r == 140
  /\ ~ daily_food r == 45
  /\ ~ total_daily r == 185
  /\ ~ py_max (200 / 370) (1 # 2) == 1 # 2.
Proof.
  cbv zeta. repeat split; try (intros [H _]; revert H); vm_compute; discriminate.
Qed.

(** ** Per-category precedence in the aggregation *)

Section Precedence.
Variable results : source_results.
Variable num_people : Z.

Lemma accommodation_cost_hotel (h : hotel_prices_t) :
  hotel_prices results = Some h ->
  accommodation_cost results num_people = Some (average_price h).
Proof. intro E. unfold accommodation_cost. rewrite E. reflexivity. Qed.

Lemma accommodation_cost_llm (llm : json) :
  hotel_prices results = None ->
  llm_estimates results = Some llm -> json_truthy llm = true ->
  accommodation_cost results num_people
  = json_number_item llm "accommodation_per_night".
Proof.
  intros E1 E2 E3. unfold accommodation_cost, llm_truthy.
  rewrite E1, E2. simpl. rewrite E3. reflexivity.
Qed.

Lemma accommodation_cost_default :
  hotel_prices results = None ->
  llm_truthy (llm_estimates results) = false ->
  accommodation_cost results num_people = Some (inject_Z (100 * num_people)).
Proof. intros E1 E2. unfold accommodation_cost. rewrite E1, E2. reflexivity. Qed.

Lemma food_cost_api (fc : food_costs_t) :
  food_costs results = Some fc ->
  food_cost results num_people
  = Some (daily_food_cost fc * inject_Z num_people).
Proof. intro E. unfold food_cost. rewrite E. reflexivity. Qed.

Lemma food_cost_llm (llm : json) :
  food_costs results = None ->
  llm_estimates results = Some llm -> json_truthy llm = true ->
  food_cost results num_people
  = option_map (fun v => v * inject_Z num_people)
      (json_number_item llm "food_per_day").
Proof.
  intros E1 E2 E3. unfold food_cost, llm_truthy.
  rewrite E1, E2. simpl. rewrite E3.
  destruct (json_number_item llm "food_per_day"); reflexivity.
Qed.

Lemma food_cost_default :
  food_costs results = None ->
  llm_truthy (llm_estimates results) = false ->
  food_cost results num_people = Some (inject_Z (30 * num_people)).
Proof. intros E1 E2. unfold food_cost. rewrite E1, E2. reflexivity. Qed.

Lemma transport_cost_table (tc : transport_costs_t) :
  transport_costs results = Some tc ->
  transport_cost results num_people
  = Some (inject_Z (daily_transport_cost tc * num_people)).
Proof. intro E. unfold transport_cost. rewrite E. reflexivity. Qed.

Lemma transport_cost_llm (llm : json) :
  transport_costs results = None ->
  llm_estimates results = Some llm -> json_truthy llm = true ->
  transport_cost results num_people
  = option_map (fun v => v * inject_Z num_people)
      (json_number_item llm "transport_per_day").
Proof.
  intros E1 E2 E3. unfold transport_cost, llm_truthy.
  rewrite E1, E2. simpl. rewrite E3.
  destruct (json_number_item llm "transport_per_day"); reflexivity.
Qed.

Lemma transport_cost_default :
  transport_costs results = None ->
  llm_truthy (llm_estimates results) = false ->
  transport_cost results num_people = Some (inject_Z (8 * num_people)).
Proof. intros E1 E2. unfold transport_cost. rewrite E1, E2. reflexivity. Qed.

(** The estimates are the three selected costs, each rounded, and the
    rounded sum of the unrounded costs. *)
Lemma calculate_final_estimates_inv (num_days : Z) (fe : final_estimates_t) :
  calculate_final_estimates results num_days num_people = Some fe ->
  exists a f t,
    accommodation_cost results num_people = Some a
    /\ food_cost results num_people = Some f
    /\ transport_cost results num_people = Some t
    /\ accommodation_per_night fe = round2 a
    /\ food_per_day fe = round2 f
    /\ transport_per_day fe = round2 t
    /\ total_per_day fe = round2 (a + f + t)
    /\ data_sources fe = tracked_sources results.
Proof.
  unfold calculate_final_estimates.
  destruct (accommodation_cost results num_people) as [a|]; [|discriminate].
  destruct (food_cost results num_people) as [f|]; [|discriminate].
  destruct (transport_cost results num_people) as [t|]; [|discriminate].
  intro E. injection E as <-. exists a, f, t. repeat split; reflexivity.
Qed.

End Precedence.

(** C1 (as the code selects). Accommodation: the hotel-price API result if
    present, else the LLM estimate, else the generic default 100 x people.
    Food: the restaurant sampling result if present, else the LLM estimate,
    else the generic default 30 x people.  Transport: the static table if
    present, else the LLM estimate, else the generic default 8 x people.
    The static per-city accommodation/food table is not consulted by the
    aggregation.  An LLM estimate that is consulted and is missing or not a
    number makes the aggregation raise ([None]). *)
Theorem C1_precedence (results : source_results) (num_people : Z) :
  ((forall h, hotel_prices results = Some h ->
      accommodation_cost results num_people = Some (average_price h))
   /\ (forall llm, hotel_prices results = None ->
         llm_estimates results = Some llm -> json_truthy llm = true ->
         accommodation_cost results num_people
         = json_number_item llm "accommodation_per_night")
   /\ (hotel_prices results = None ->
       llm_truthy (llm_estimates results) = false ->
       accommodation_cost results num_people
       = Some (inject_Z (100 * num_people))))
  /\ ((forall fc, food_costs results = Some fc ->
         food_cost results num_people
         = Some (daily_food_cost fc * inject_Z num_people))
      /\ (forall llm, food_costs results = None ->
            llm_estimates results = Some llm -> json_truthy llm = true ->
            food_cost results num_people
            = option_map (fun v => v * inject_Z num_people)
                (json_number_item llm "food_per_day"))
      /\ (food_costs results = None ->
          llm_truthy (llm_estimates results) = false ->
          food_cost results num_people = Some (inject_Z (30 * num_people))))
  /\ ((forall tc, transport_costs results = Some tc ->
         transport_cost results num_people
         = Some (inject_Z (daily_transport_cost tc * num_people)))
      /\ (forall llm, transport_costs results = None ->
            llm_estimates results = Some llm -> json_truthy llm = true ->
            transport_cost results num_people
            = option_map (fun v => v * inject_Z num_people)
                (json_number_item llm "transport_per_day"))
      /\ (transport_costs results = None ->
          llm_truthy (llm_estimates results) = false ->
          transport_cost results num_people = Some (inject_Z (8 * num_people))))
  /\ (forall num_days fe,
        calculate_final_estimates results num_days num_people = Some fe ->
        exists a f t,
          accommodation_cost results num_people = Some a
          /\ food_cost results num_people = Some f
          /\ transport_cost results num_people = Some t
          /\ accommodation_per_night fe = round2 a
          /\ food_per_day fe = round2 f
          /\ transport_per_day fe = round2 t).
Proof.
  repeat apply conj.
  - apply accommodation_cost_hotel.
  - apply accommodation_cost_llm.
  - apply accommodation_cost_default.
  - apply food_cost_api.
  - apply food_cost_llm.
  - apply food_cost_default.
  - apply transport_cost_table.
  - apply transport_cost_llm.
  - apply transport_cost_default.
  - intros d fe E.
    destruct (calculate_final_estimates_inv _ _ _ _ E)
      as (a & f & t & Ha & Hf & Ht & H1 & H2 & H3 & _).
    exists a, f, t. repeat split; assumption.
Qed.

(** C1 as stated fails: with no hotel price and no LLM reply for Paris, the
    static per-city table has a row (140 / 45), yet the aggregation returns
    the generic defaults 100 and 30. *)
Lemma C1_counterexample :
  dict_get base_estimates (city_key "Paris")
  = Some {| accommodation := 140; food := 45 |}
  /\ exists fe,
       calculate_final_estimates (no_live_sources "Paris") 5 1 = Some fe
       /\ accommodation_per_night fe == 100
       /\ ~ accommodation_per_night fe == 140
       /\ food_per_day fe == 30
       /\ ~ food_per_day fe == 45.
Proof.
  split; [reflexivity|].
  eexists. split; [reflexivity|].
  repeat split; vm_compute; discriminate.
Qed.

(** C8 (as the code scales). Food and transport multiply their per-person
    rate by the number of people in every branch, the generic defaults
    (30 and 8 per person) included.  Accommodation taken from the hotel API
    or the LLM reply does not depend on the number of people; the generic
    accommodation default, however, is 100 per person. *)
Theorem C8_per_person_scaling (results : source_results) (num_people : Z) :
  ((forall fc, food_costs results = Some fc ->
      food_cost results num_people
      = Some (daily_food_cost fc * inject_Z num_people))
   /\ (forall llm, food_costs results = None ->
         llm_estimates results = Some llm -> json_truthy llm = true ->
         food_cost results num_people
         = option_map (fun v => v * inject_Z num_people)
             (json_number_item llm "food_per_day"))
   /\ (food_costs results = None ->
       llm_truthy (llm_estimates results) = false ->
       exists c, food_cost results num_people = Some c
                 /\ c == 30 * inject_Z num_people))
  /\ ((forall tc, transport_costs results = Some tc ->
         exists c, transport_cost results num_people = Some c
                   /\ c == inject_Z (daily_transport_cost tc)
                           * inject_Z num_people)
      /\ (forall llm, transport_costs results = None ->
            llm_estimates results = Some llm -> json_truthy llm = true ->
            transport_cost results num_people
            = option_map (fun v => v * inject_Z num_people)
                (json_number_item llm "transport_per_day"))
      /\ (transport_costs results = None ->
          llm_truthy (llm_estimates results) = false ->
          exists c, transport_cost results num_people = Some c
                    /\ c == 8 * inject_Z num_people))
  /\ ((forall h, hotel_prices results = Some h ->
         forall m, accommodation_cost results m = Some (average_price h))
      /\ (forall llm, hotel_prices results = None ->
            llm_estimates results = Some llm -> json_truthy llm = true ->
            forall m,
              accommodation_cost results m
              = json_number_item llm "accommodation_per_night")
      /\ (hotel_prices results = None ->
          llm_truthy (llm_estimates results) = false ->
          exists c, accommodation_cost results num_people = Some c
                    /\ c == 100 * inject_Z num_people)).
Proof.
  repeat apply conj.
  - apply food_cost_api.
  - apply food_cost_llm.
  - intros E1 E2. eexists. split; [apply food_cost_default; assumption|].
    rewrite inject_Z_mult. reflexivity.
  - intros tc E. eexists. split; [apply transport_cost_table; exact E|].
    rewrite inject_Z_mult. reflexivity.
  - apply transport_cost_llm.
  - intros E1 E2. eexists. split; [apply transport_cost_default; assumption|].
    rewrite inject_Z_mult. reflexivity.
  - intros h E m. apply accommodation_cost_hotel. exact E.
  - intros llm E1 E2 E3 m. apply accommodation_cost_llm; assumption.
  - intros E1 E2. eexists.
    split; [apply accommodation_cost_default; assumption|].
    rewrite inject_Z_mult. reflexivity.
Qed.

(** C8 as stated fails on the generic-default branch: with no hotel price
    and no LLM reply the accommodation estimate is 100 for one traveller and
    200 for two. *)
Lemma C8_counterexample :
  accommodation_cost (no_live_sources "Paris") 1 = Some (inject_Z 100)
  /\ accommodation_cost (no_live_sources "Paris") 2 = Some (inject_Z 200)
  /\ ~ (forall n m : Z,
          accommodation_cost (no_live_sources "Paris") n
          = accommodation_cost (no_live_sources "Paris") m).
Proof.
  split; [reflexivity|]. split; [reflexivity|].
  intro H. specialize (H 1%Z 2%Z). discriminate H.
Qed.

(** ** Running the aggregation *)

Lemma fallback_insights_truthy (city : string) :
  insights_truthy (fb_local_insights (get_fallback_insights city)) = true.
Proof.
  unfold get_fallback_insights. cbv zeta.
  destruct (dict_get fallback_data (city_key city)) as [d|] eqn:E.
  - apply (dict_get_Forall
             (fun d => insights_truthy (fb_local_insights d) = true) _ _ _) in E;
      [exact E|].
    unfold fallback_data. repeat constructor.
  - reflexivity.
Qed.

(** The enhancement keeps the estimates and appends exactly one tag, which
    is always the search tag: when both searches come back empty the static
    insights take their place, and those are never empty. *)
Lemma enhance_run (w : world) (city : string) (ca : cost_analysis_t)
    (log : list adapter_call) :
  exists ca' log',
    enhance_cost_analysis_with_duckduckgo w city ca log = (ca', log')
    /\ sources ca' = sources ca
    /\ final_estimates ca'
       = append_source (final_estimates ca) "DuckDuckGo real-time search".
Proof.
  unfold enhance_cost_analysis_with_duckduckgo, bind, call, ret. cbv zeta.
  destruct (insights_truthy (w_local_insights w)) eqn:El; simpl.
  - rewrite El. simpl. eexists _, _. repeat split; reflexivity.
  - destruct (insights_truthy (w_weather_insights w)) eqn:Ew; simpl.
    + rewrite El, Ew. simpl. eexists _, _. repeat split; reflexivity.
    + rewrite fallback_insights_truthy. simpl.
      eexists _, _. repeat split; reflexivity.
Qed.

Section RunAnalysis.
Variable w : world.
Variable city : string.
Variables (trip_budget : Q) (num_days num_people start_date end_date : Z).

Let analysis :=
  get_comprehensive_cost_analysis w city trip_budget num_days num_people
    start_date end_date.

Lemma analysis_some (fe : final_estimates_t) (log : list adapter_call) :
  calculate_final_estimates (analysis_sources w city) num_days num_people
  = Some fe ->
  exists ca log',
    analysis log = (Some ca, log')
    /\ sources ca = analysis_sources w city
    /\ final_estimates ca = append_source fe "DuckDuckGo real-time search".
Proof.
  intro E.
  unfold analysis, get_comprehensive_cost_analysis, bind, call. cbv zeta.
  fold (analysis_sources w city). rewrite E.
  destruct (enhance_run w city
              {| sources := analysis_sources w city; final_estimates := fe;
                 duckduckgo_insights := None |}
              (((((log ++ [GetRealTimeCostsLlm]) ++ [GetHotelPricesApi])
                   ++ [GetFoodCostsApi]) ++ [GetTransportCostsApi])
                 ++ [GetCostOfLivingApi]))
    as (ca' & log' & Hrun & Hs & Hf).
  unfold bind. rewrite Hrun. unfold ret.
  exists ca', log'. repeat split; assumption.
Qed.

Lemma analysis_none (log : list adapter_call) :
  calculate_final_estimates (analysis_sources w city) num_days num_people
  = None ->
  analysis log = (None, log ++ source_calls).
Proof.
  intro E.
  unfold analysis, get_comprehensive_cost_analysis, bind, call. cbv zeta.
  fold (analysis_sources w city). rewrite E. unfold ret, source_calls.
  rewrite <- !app_assoc. reflexivity.
Qed.

Lemma analysis_inv (ca : cost_analysis_t) (log log' : list adapter_call) :
  analysis log = (Some ca, log') ->
  exists fe,
    calculate_final_estimates (analysis_sources w city) num_days num_people
    = Some fe
    /\ final_estimates ca = append_source fe "DuckDuckGo real-time search".
Proof.
  intro H.
  destruct (calculate_final_estimates (analysis_sources w city) num_days
              num_people) as [fe|] eqn:E.
  - destruct (analysis_some fe log E) as (ca' & log'' & Hrun & _ & Hf).
    rewrite Hrun in H. injection H as <- _. exists fe. split; [reflexivity|exact Hf].
  - rewrite (analysis_none log E) in H. discriminate H.
Qed.

End RunAnalysis.

(** C10. For every city string the static transport lookup returns a
    result: the table value when the lowercased, trimmed city is listed, and
    8 otherwise.  Hence in the aggregation the transport estimate is always
    that rate times the number of people, whatever the LLM replied: the
    LLM and generic-default branches of the transport category are never
    taken. *)
Theorem C10_transport_always_static (city : string) :
  (exists t, get_transport_costs_api city = Some t
             /\ daily_transport_cost t = transport_rate city)
  /\ (forall c, dict_get transport_estimates (city_key city) = Some c ->
        transport_rate city = c)
  /\ (dict_get transport_estimates (city_key city) = None ->
      transport_rate city = 8%Z)
  /\ (forall w num_people,
        transport_cost (analysis_sources w city) num_people
        = Some (inject_Z (transport_rate city * num_people)))
  /\ (forall w trip_budget num_days num_people start_date end_date ca log,
        run (get_comprehensive_cost_analysis w city trip_budget num_days
               num_people start_date end_date) = (Some ca, log) ->
        transport_per_day (final_estimates ca)
        = round2 (inject_Z (transport_rate city * num_people))).
Proof.
  assert (Hcost : forall w num_people,
             transport_cost (analysis_sources w city) num_people
             = Some (inject_Z (transport_rate city * num_people))).
  { intros w n.
    destruct (get_transport_costs_api_rate city) as (t & Ht & Hr).
    rewrite (transport_cost_table (analysis_sources w city) n t Ht), Hr.
    reflexivity. }
  split; [apply get_transport_costs_api_rate|].
  split; [intros c E; unfold transport_rate; rewrite E; reflexivity|].
  split; [intro E; unfold transport_rate; rewrite E; reflexivity|].
  split; [exact Hcost|].
  intros w b d n s e ca log H.
  destruct (analysis_inv w city b d n s e ca [] log H) as (fe & E & Hf).
  destruct (calculate_final_estimates_inv _ _ _ _ E)
    as (a & f & t & _ & _ & Ht & _ & _ & Htp & _).
  rewrite Hcost in Ht. injection Ht as <-.
  rewrite Hf. exact Htp.
Qed.

(** ** Non-negativity of the static fallback *)

Lemma adjust_nonneg (a f b a' f' : Q) :
  0 <= a -> 0 <= f -> adjust_to_budget a f b = Some (a', f') ->
  0 <= a' /\ 0 <= f'.
Proof.
  intros Ha Hf.
  destruct (Qeq_bool (a + f) 0) eqn:Ez.
  - (* zero baseline: a division, if reached, raises *)
    unfold adjust_to_budget, py_div. cbv zeta. rewrite Ez.
    destruct (Qltb ((a + f) * (15 # 10)) b); [discriminate|].
    destruct (Qltb b ((a + f) * (7 # 10))); [discriminate|].
    intro E. injection E as <- <-. split; assumption.
  - assert (Hpos : 0 < a + f).
    { apply Qeq_bool_neq in Ez. lra. }
    destruct (Qlt_le_dec ((a + f) * (15 # 10)) b) as [H1|H1].
    + destruct (adjust_up a f b Hpos H1) as [E [Hk _]]. rewrite E.
      intro E'. injection E' as <- <-. split; nra.
    + destruct (Qlt_le_dec b ((a + f) * (7 # 10))) as [H2|H2].
      * destruct (adjust_down a f b Hpos H2) as [E [Hk _]]. rewrite E.
        intro E'. injection E' as <- <-. split; nra.
      * rewrite (adjust_none a f b (conj H2 H1)).
        intro E'. injection E' as <- <-. split; assumption.
Qed.

Lemma inject_Z_nonneg (z : Z) : (0 <= z)%Z -> 0 <= inject_Z z.
Proof. intro H. rewrite Zle_Qle in H. exact H. Qed.

Lemma estimate_daily_costs_nonneg (city : string) (trip_budget : Q)
    (num_days num_people : Z) :
  (0 <= num_people)%Z ->
  let r := estimate_daily_costs city trip_budget num_days num_people in
  0 <= daily_accommodation r /\ 0 <= daily_food r /\ 0 <= total_daily r.
Proof.
  intros Hn. cbv zeta. unfold estimate_daily_costs.
  destruct (estimates_for_pos city) as [Hacc Hfood].
  destruct (estimate_unrounded city trip_budget num_days num_people)
    as [[a' f']|] eqn:E; cbn [daily_accommodation daily_food total_daily].
  - unfold estimate_unrounded in E. cbv zeta in E.
    destruct (py_div trip_budget (inject_Z num_days)); [|discriminate].
    apply adjust_nonneg in E; try (apply inject_Z_nonneg; nia).
    destruct E as [Ha Hf].
    repeat split; apply round2_nonneg; lra.
  - repeat split; apply round2_nonneg; apply inject_Z_nonneg; lia.
Qed.

(** C2 (as the code behaves). For every city, budget, [num_days >= 1] and
    [num_people >= 1], when the hotel API, the restaurant API and the LLM
    return nothing, the aggregation still returns an estimate: accommodation
    100 x people, food 30 x people, and transport the static table's rate
    for the city x people (8 x people only for an unlisted city), all
    non-negative.  The static fallback [estimate_daily_costs] likewise
    always returns non-negative amounts. *)
Theorem C2_never_fails (w : world) (city : string) (trip_budget : Q)
    (num_days num_people start_date end_date : Z) :
  (1 <= num_days)%Z -> (1 <= num_people)%Z ->
  w_hotel w = None -> w_food w = None -> llm_truthy (w_llm w) = false ->
  (exists ca log,
     run (get_comprehensive_cost_analysis w city trip_budget num_days
            num_people start_date end_date) = (Some ca, log)
     /\ accommodation_per_night (final_estimates ca)
        == inject_Z (100 * num_people)
     /\ food_per_day (final_estimates ca) == inject_Z (30 * num_people)
     /\ transport_per_day (final_estimates ca)
        == inject_Z (transport_rate city * num_people)
     /\ (dict_get transport_estimates (city_key city) = None ->
         transport_per_day (final_estimates ca) == inject_Z (8 * num_people))
     /\ 0 <= accommodation_per_night (final_estimates ca)
     /\ 0 <= food_per_day (final_estimates ca)
     /\ 0 <= transport_per_day (final_estimates ca))
  /\ (let r := estimate_daily_costs city trip_budget num_days num_people in
      0 <= daily_accommodation r /\ 0 <= daily_food r /\ 0 <= total_daily r).
Proof.
  intros Hd Hn Hh Hf Hl.
  split; [|apply estimate_daily_costs_nonneg; lia].
  pose proof (transport_rate_pos city) as Hrate.
  destruct (get_transport_costs_api_rate city) as (t & Ht & Hr).
  assert (E : calculate_final_estimates (analysis_sources w city) num_days
                num_people
              = Some {| accommodation_per_night :=
                          round2 (inject_Z (100 * num_people));
                        food_per_day := round2 (inject_Z (30 * num_people));
                        transport_per_day :=
                          round2 (inject_Z (transport_rate city * num_people));
                        total_per_day :=
                          round2 (inject_Z (100 * num_people)
                                  + inject_Z (30 * num_people)
                                  + inject_Z (transport_rate city * num_people));
                        total_trip_cost :=
                          round2 ((inject_Z (100 * num_people)
                                   + inject_Z (30 * num_people)
                                   + inject_Z (transport_rate city * num_people))
                                  * inject_Z num_days);
                        data_sources :=
                          tracked_sources (analysis_sources w city) |}).
  { unfold calculate_final_estimates.
    rewrite (accommodation_cost_default (analysis_sources w city) num_people Hh Hl).
    rewrite (food_cost_default (analysis_sources w city) num_people Hf Hl).
    rewrite (transport_cost_table (analysis_sources w city) num_people t Ht), Hr.
    reflexivity. }
  destruct (analysis_some w city trip_budget num_days num_people start_date
              end_date _ [] E) as (ca & log & Hrun & _ & Hfe).
  exists ca, log. split; [exact Hrun|].
  rewrite Hfe. unfold append_source.
  cbn [accommodation_per_night food_per_day transport_per_day].
  repeat split.
  - apply round2_inject_Z.
  - apply round2_inject_Z.
  - apply round2_inject_Z.
  - intro En. rewrite round2_inject_Z. unfold transport_rate. rewrite En.
    reflexivity.
  - apply round2_nonneg, inject_Z_nonneg. lia.
  - apply round2_nonneg, inject_Z_nonneg. lia.
  - apply round2_nonneg, inject_Z_nonneg. nia.
Qed.

Lemma C2_never_fails_witness :
  exists ca log,
    run (get_comprehensive_cost_analysis silent_world "Lisbon" 1000 5 2 0 4)
    = (Some ca, log)
    /\ accommodation_per_night (final_estimates ca) == 200
    /\ food_per_day (final_estimates ca) == 60
    /\ transport_per_day (final_estimates ca) == 16.
Proof.
  destruct (C2_never_fails silent_world "Lisbon" 1000 5 2 0 4)
    as [(ca & log & Hrun & Ha & Hf & Ht & _) _];
    try reflexivity; try lia.
  exists ca, log. repeat split; assumption.
Defined.

(** C2 as stated fails for a listed city: with every live source and the LLM
    silent, the transport estimate for Dubai and one traveller is 25, the
    static table's rate, not the generic default 8. *)
Lemma C2_counterexample :
  exists ca log,
    run (get_comprehensive_cost_analysis silent_world "Dubai" 1000 5 1 0 4)
    = (Some ca, log)
    /\ accommodation_per_night (final_estimates ca) == inject_Z (100 * 1)
    /\ food_per_day (final_estimates ca) == inject_Z (30 * 1)
    /\ transport_per_day (final_estimates ca) == 25
    /\ ~ transport_per_day (final_estimates ca) == inject_Z (8 * 1).
Proof.
  eexists _, _. split; [lazy; reflexivity|].
  repeat split; vm_compute; discriminate.
Qed.

(** ** The total and the category fields *)

Lemma estimate_daily_costs_shape (city : string) (trip_budget : Q)
    (num_days num_people : Z) :
  let r := estimate_daily_costs city trip_budget num_days num_people in
  exists a f,
    daily_accommodation r = round2 a /\ daily_food r = round2 f
    /\ total_daily r == round2 (a + f)
    /\ (forall p, estimate_unrounded city trip_budget num_days num_people
                  = Some p -> p = (a, f)).
Proof.
  cbv zeta. unfold estimate_daily_costs.
  destruct (estimate_unrounded city trip_budget num_days num_people)
    as [[a f]|]; cbn [daily_accommodation daily_food total_daily].
  - exists a, f. repeat split; try reflexivity.
    intros p E. injection E as <-. reflexivity.
  - exists (inject_Z (100 * num_people)), (inject_Z (30 * num_people)).
    repeat split; try reflexivity; [|discriminate].
    apply round2_eq. rewrite <- inject_Z_plus.
    replace (100 * num_people + 30 * num_people)%Z with (130 * num_people)%Z
      by lia.
    reflexivity.
Qed.

(** C3 (as the code builds the total). On the multi-source path the total
    is the sum of the three unrounded category costs, rounded to two
    decimals; on the static fallback path it is the rounded sum of the two
    unrounded costs the fallback has (accommodation and food; there is no
    transport there).  The stored category fields are rounded one by one,
    so the total is within 0.02 (multi-source) and 0.01 (fallback) of their
    sum, not always equal to it. *)
Theorem C3_total_is_rounded_sum :
  (forall results num_days num_people fe,
     calculate_final_estimates results num_days num_people = Some fe ->
     exists a f t,
       accommodation_cost results num_people = Some a
       /\ food_cost results num_people = Some f
       /\ transport_cost results num_people = Some t
       /\ accommodation_per_night fe = round2 a
       /\ food_per_day fe = round2 f
       /\ transport_per_day fe = round2 t
       /\ total_per_day fe = round2 (a + f + t)
       /\ Qabs (total_per_day fe
                - (accommodation_per_night fe + food_per_day fe
                   + transport_per_day fe)) <= 2 # 100)
  /\ (forall city trip_budget num_days num_people,
        let r := estimate_daily_costs city trip_budget num_days num_people in
        (exists a f,
           daily_accommodation r = round2 a /\ daily_food r = round2 f
           /\ total_daily r == round2 (a + f)
           /\ (forall p,
                 estimate_unrounded city trip_budget num_days num_people
                 = Some p -> p = (a, f)))
        /\ Qabs (total_daily r - (daily_accommodation r + daily_food r))
           <= 1 # 100).
Proof.
  split.
  - intros results d n fe E.
    destruct (calculate_final_estimates_inv _ _ _ _ E)
      as (a & f & t & Ha & Hf & Ht & H1 & H2 & H3 & H4 & _).
    exists a, f, t. repeat split; try assumption.
    rewrite H1, H2, H3, H4. apply round2_sum3.
  - intros city b d n. cbv zeta. split.
    + apply estimate_daily_costs_shape.
    + destruct (estimate_daily_costs_shape city b d n)
        as (a & f & Ha & Hf & Ht & _).
      rewrite Ha, Hf, Ht. apply round2_sum2.
Qed.

(** C3 as stated fails on both paths.  Fallback, Paris, 310 USD over 3 days,
    one traveller: the fields are 78.20 and 25.14 (sum 103.34), the total is
    103.33.  Multi-source, Paris, one traveller: the fields are 100.33,
    70.71 and 8 (sum 179.04), the total is 179.05. *)
Lemma C3_counterexample :
  (let r := estimate_daily_costs "Paris" 310 3 1 in
   daily_accommodation r == 7820 # 100 /\ daily_food r == 2514 # 100
   /\ total_daily r == 10333 # 100
   /\ ~ total_daily r == daily_accommodation r + daily_food r)
  /\ (exists fe,
        calculate_final_estimates (priced_sources "Paris") 3 1 = Some fe
        /\ accommodation_per_night fe == 10033 # 100
        /\ food_per_day fe == 7071 # 100
        /\ transport_per_day fe == 8
        /\ total_per_day fe == 17905 # 100
        /\ ~ total_per_day fe
             == accommodation_per_night fe + food_per_day fe
                + transport_per_day fe).
Proof.
  split.
  - cbv zeta. repeat split; vm_compute; discriminate.
  - eexists. split; [lazy; reflexivity|].
    repeat split; vm_compute; discriminate.
Qed.

(** ** The list of data sources *)

Lemma analysis_data_sources (w : world) (city : string) (trip_budget : Q)
    (num_days num_people start_date end_date : Z) (ca : cost_analysis_t)
    (log : list adapter_call) :
  run (get_comprehensive_cost_analysis w city trip_budget num_days num_people
         start_date end_date) = (Some ca, log) ->
  data_sources (final_estimates ca)
  = tracked_sources (analysis_sources w city)
    ++ ["DuckDuckGo real-time search"%string].
Proof.
  intro H.
  destruct (analysis_inv w city trip_budget num_days num_people start_date
              end_date ca [] log H) as (fe & E & Hf).
  destruct (calculate_final_estimates_inv _ _ _ _ E)
    as (a & f & t & _ & _ & _ & _ & _ & _ & _ & Hs).
  rewrite Hf. unfold append_source. cbn [data_sources]. rewrite Hs.
  reflexivity.
Qed.

(** C6 (as the code tracks sources). When the hotel API, the restaurant API
    and the LLM all return data, the aggregation succeeds and its source
    list is exactly "Real hotel prices", "Restaurant price analysis",
    "LLM research", "DuckDuckGo real-time search", in this order and without
    duplicates: one tag per source that returned data, followed by the tag
    of the search enhancement.  The list records availability, not who won:
    the three categories are won by the hotel API, the restaurant API and
    the static transport table, so "LLM research" is listed without having
    won a category, and the transport table has no tag. *)
Theorem C6_data_sources (w : world) (city : string) (trip_budget : Q)
    (num_days num_people start_date end_date : Z)
    (h : hotel_prices_t) (fc : food_costs_t) :
  w_hotel w = Some h -> w_food w = Some fc -> llm_truthy (w_llm w) = true ->
  exists ca log,
    run (get_comprehensive_cost_analysis w city trip_budget num_days
           num_people start_date end_date) = (Some ca, log)
    /\ data_sources (final_estimates ca)
       = [ "Real hotel prices"; "Restaurant price analysis"; "LLM research";
           "DuckDuckGo real-time search" ]%string
    /\ NoDup (data_sources (final_estimates ca))
    /\ accommodation_winner (analysis_sources w city) = HotelApi
    /\ food_winner (analysis_sources w city) = RestaurantApi
    /\ transport_winner (analysis_sources w city) = StaticTransportTable.
Proof.
  intros Hh Hf Hl.
  destruct (get_transport_costs_api_rate city) as (t & Ht & _).
  assert (E : exists fe,
             calculate_final_estimates (analysis_sources w city) num_days
               num_people = Some fe).
  { unfold calculate_final_estimates.
    rewrite (accommodation_cost_hotel (analysis_sources w city) num_people h Hh).
    rewrite (food_cost_api (analysis_sources w city) num_people fc Hf).
    rewrite (transport_cost_table (analysis_sources w city) num_people t Ht).
    eexists. reflexivity. }
  destruct E as [fe E].
  destruct (analysis_some w city trip_budget num_days num_people start_date
              end_date fe [] E) as (ca & log & Hrun & _ & _).
  assert (Hds : data_sources (final_estimates ca)
                = [ "Real hotel prices"; "Restaurant price analysis";
                    "LLM research"; "DuckDuckGo real-time search" ]%string).
  { rewrite (analysis_data_sources _ _ _ _ _ _ _ _ _ Hrun).
    unfold tracked_sources, analysis_sources.
    cbn [hotel_prices food_costs llm_estimates].
    rewrite Hh, Hf, Hl. reflexivity. }
  exists ca, log. split; [exact Hrun|]. split; [exact Hds|].
  split.
  - rewrite Hds.
    repeat (constructor;
            [cbn [In]; intros Hin;
             repeat (destruct Hin as [Hin|Hin]; [discriminate Hin|]);
             exact Hin|]).
    constructor.
  - unfold accommodation_winner, food_winner, transport_winner, analysis_sources.
    cbn [hotel_prices food_costs transport_costs].
    rewrite Hh, Hf, Ht. repeat split.
Qed.

Lemma C6_data_sources_witness :
  exists ca log,
    run (get_comprehensive_cost_analysis answering_world "Paris" 1000 5 2 0 4)
    = (Some ca, log)
    /\ data_sources (final_estimates ca)
       = [ "Real hotel prices"; "Restaurant price analysis"; "LLM research";
           "DuckDuckGo real-time search" ]%string.
Proof.
  destruct (C6_data_sources answering_world "Paris" 1000 5 2 0 4
              {| average_price := 120; price_range := "$100 - $140";
                 hotel_count := 5 |}
              {| average_meal_cost := 15; daily_food_cost := 45;
                 restaurant_count := 10 |}
              eq_refl eq_refl eq_refl)
    as (ca & log & Hrun & Hds & _).
  exists ca, log. split; assumption.
Defined.

(** C6 as stated fails: when every adapter returns data the LLM wins no
    category (the estimates are the hotel price 120, the restaurant cost
    45 x 2 and the table rate 8 x 2, none of the LLM's 150 / 50 / 20), yet
    "LLM research" is in the list. *)
Lemma C6_counterexample :
  exists ca log,
    run (get_comprehensive_cost_analysis answering_world "Paris" 1000 5 2 0 4)
    = (Some ca, log)
    /\ accommodation_winner (sources ca) = HotelApi
    /\ food_winner (sources ca) = RestaurantApi
    /\ transport_winner (sources ca) = StaticTransportTable
    /\ accommodation_per_night (final_estimates ca) == 120
    /\ food_per_day (final_estimates ca) == 90
    /\ transport_per_day (final_estimates ca) == 16
    /\ In "LLM research"%string (data_sources (final_estimates ca))
    /\ data_sources (final_estimates ca)
       <> [ "Real hotel prices"; "Restaurant price analysis" ]%string.
Proof.
  eexists _, _. split; [lazy; reflexivity|].
  repeat split; try (vm_compute; reflexivity).
  - cbn. auto.
  - discriminate.
Qed.

(** ** Running [plan_trip] *)

Lemma bind_call {A B : Type} (c : adapter_call) (a : A) (k : A -> traced B)
    (log : list adapter_call) :
  bind (call c a) k log = k a (log ++ [c]).
Proof. reflexivity. Qed.

Lemma bind_ret {A B : Type} (a : A) (k : A -> traced B)
    (log : list adapter_call) :
  bind (ret a) k log = k a log.
Proof. reflexivity. Qed.

Lemma plan_accepted_run (w : world) (city : string)
    (start_date_obj end_date_obj num_people : Z) (trip_budget : Q)
    (log : list adapter_call) :
  (start_date_obj <= end_date_obj)%Z ->
  exists log',
    (w_itinerary w = None
     /\ plan_accepted w city start_date_obj end_date_obj num_people
          trip_budget log = (PlanningError, log'))
    \/ (w_itinerary w <> None
        /\ exists p,
             plan_accepted w city start_date_obj end_date_obj num_people
               trip_budget log = (Plan p, log')
             /\ plan_fields p trip_budget start_date_obj end_date_obj).
Proof.
  intro Hle.
  assert (Hd : ~ inject_Z (end_date_obj - start_date_obj + 1) == 0).
  { intro E. unfold Qeq in E. simpl in E. lia. }
  remember (plan_accepted w city start_date_obj end_date_obj num_people
              trip_budget log) as r eqn:Hr.
  unfold plan_accepted in Hr. cbv zeta in Hr.
  rewrite (py_div_nonzero _ _ Hd) in Hr.
  do 3 (rewrite bind_call in Hr; cbv beta in Hr).
  assert (Hrate : exists log1,
             forall (k : unit -> traced plan_result),
               bind (if rate_truthy (w_duckduckgo_rate w)
                     then ret tt else call GetExchangeRate tt) k
                 (((log ++ [GetCurrentWeather]) ++ [GetWeatherForecast])
                    ++ [GetCurrencyExchangeDuckduckgo])
               = k tt log1).
  { destruct (rate_truthy (w_duckduckgo_rate w)); eexists; intro k;
      [apply bind_ret|apply bind_call]. }
  destruct Hrate as [log1 Hrate]. rewrite Hrate in Hr. cbv beta in Hr.
  rewrite bind_call in Hr. cbv beta in Hr.
  destruct (w_itinerary w) as [it|] eqn:Ei.
  - unfold bind at 1 in Hr.
    destruct (get_comprehensive_cost_analysis w city trip_budget
                (end_date_obj - start_date_obj + 1) num_people start_date_obj
                end_date_obj (log1 ++ [OrchestrateItinerary]))
      as [ca log2].
    do 3 (rewrite bind_call in Hr; cbv beta in Hr). unfold ret in Hr.
    subst r. eexists. right. split; [discriminate|].
    eexists. split; [reflexivity|].
    unfold plan_fields. repeat split.
  - unfold ret in Hr. subst r. eexists. left. split; reflexivity.
Qed.

Section PlanTripFacts.
Variable parse_date : string -> option Z.
Variable w : world.
Variables city start_date end_date interests currency_code : string.
Variable num_people : Z.
Variable trip_budget : Q.

Let request :=
  plan_trip parse_date w city start_date end_date num_people interests
    trip_budget currency_code.

Lemma plan_trip_rejects_reversed (start_date_obj end_date_obj : Z) :
  parse_date start_date = Some start_date_obj ->
  parse_date end_date = Some end_date_obj ->
  (end_date_obj < start_date_obj)%Z ->
  run request
  = (Message
       (if required_inputs city start_date end_date num_people trip_budget
             currency_code
        then "End date must be after start date."
        else "Please fill out all required inputs."), []).
Proof.
  intros Hs He Hlt. unfold request, plan_trip, run.
  destruct (required_inputs city start_date end_date num_people trip_budget
              currency_code); cbn [negb]; [|reflexivity].
  rewrite Hs, He.
  apply Z.ltb_lt in Hlt. rewrite Hlt. reflexivity.
Qed.

Lemma plan_trip_accepted (start_date_obj end_date_obj : Z) :
  accepted parse_date city start_date end_date currency_code num_people
    trip_budget start_date_obj end_date_obj ->
  w_itinerary w <> None ->
  exists p log,
    run request = (Plan p, log)
    /\ plan_fields p trip_budget start_date_obj end_date_obj.
Proof.
  intros (Hreq & Hs & He & Hle) Hit. unfold request, plan_trip, run.
  rewrite Hreq, Hs, He. cbn [negb].
  assert (Hge : (end_date_obj <? start_date_obj)%Z = false)
    by (apply Z.ltb_ge; exact Hle).
  rewrite Hge.
  destruct (plan_accepted_run w city start_date_obj end_date_obj num_people
              trip_budget [] Hle) as [log' [[Hnone _]|[_ (p & Hrun & Hp)]]].
  - contradiction.
  - exists p, log'. split; assumption.
Qed.

Lemma plan_trip_inv (p : trip_plan) (log : list adapter_call) :
  run request = (Plan p, log) ->
  exists start_date_obj end_date_obj,
    accepted parse_date city start_date end_date currency_code num_people
      trip_budget start_date_obj end_date_obj
    /\ plan_fields p trip_budget start_date_obj end_date_obj.
Proof.
  unfold request, plan_trip, run, accepted.
  destruct (required_inputs city start_date end_date num_people trip_budget
              currency_code); cbn [negb]; [|discriminate].
  destruct (parse_date start_date) as [s|]; [|discriminate].
  destruct (parse_date end_date) as [e|]; [|discriminate].
  destruct (e <? s)%Z eqn:Hlt; [discriminate|].
  apply Z.ltb_ge in Hlt.
  destruct (plan_accepted_run w city s e num_people trip_budget [] Hlt)
    as [log' [[_ Hrun]|[_ (p' & Hrun & Hp)]]];
    rewrite Hrun; intro E; [discriminate|].
  injection E as <- _.
  exists s, e. repeat split; try reflexivity; try assumption; apply Hp.
Qed.

End PlanTripFacts.

(** ** The budget split *)



(** ** The trip window *)

(** C9. A request whose end date precedes its start date is rejected with a
    validation message and an empty adapter-call log, so before any adapter
    call or aggregation.  Every request that yields a plan passed the
    validation, and its number of days is the ordinal difference of the two
    dates plus one, at least 1.  Every accepted request whose itinerary call
    returns does yield a plan. *)
Theorem C9_trip_window (parse_date : string -> option Z) (w : world)
    (city start_date end_date : string) (num_people : Z) (interests : string)
    (trip_budget : Q) (currency_code : string) :
  (forall start_date_obj end_date_obj,
     parse_date start_date = Some start_date_obj ->
     parse_date end_date = Some end_date_obj ->
     (end_date_obj < start_date_obj)%Z ->
     run (plan_trip parse_date w city start_date end_date num_people
            interests trip_budget currency_code)
     = (Message
          (if required_inputs city start_date end_date num_people
                trip_budget currency_code
           then "End date must be after start date."
           else "Please fill out all required inputs."), []))
  /\ (forall p log,
        run (plan_trip parse_date w city start_date end_date num_people
               interests trip_budget currency_code) = (Plan p, log) ->
        exists start_date_obj end_date_obj,
          parse_date start_date = Some start_date_obj
          /\ parse_date end_date = Some end_date_obj
          /\ (start_date_obj <= end_date_obj)%Z
          /\ num_days p = (end_date_obj - start_date_obj + 1)%Z
          /\ (1 <= num_days p)%Z)
  /\ (forall start_date_obj end_date_obj,
        accepted parse_date city start_date end_date currency_code
          num_people trip_budget start_date_obj end_date_obj ->
        w_itinerary w <> None ->
        exists p log,
          run (plan_trip parse_date w city start_date end_date num_people
                 interests trip_budget currency_code) = (Plan p, log)
          /\ num_days p = (end_date_obj - start_date_obj + 1)%Z
          /\ (1 <= num_days p)%Z).
Proof.
  split; [|split].
  - intros s e Hs He Hlt.
    apply (plan_trip_rejects_reversed parse_date w city start_date end_date
             interests currency_code num_people trip_budget s e Hs He Hlt).
  - intros p log H.
    destruct (plan_trip_inv _ _ _ _ _ _ _ _ _ _ _ H)
      as (s & e & (_ & Hs & He & Hle) & Hn & _).
    exists s, e. repeat split; try assumption. lia.
  - intros s e Hacc Hit.
    destruct (plan_trip_accepted parse_date w city start_date end_date
                interests currency_code num_people trip_budget s e Hacc Hit)
      as (p & log & Hrun & Hn & _).
    exists p, log. repeat split; try assumption.
    destruct Hacc as (_ & _ & _ & Hle). lia.
Qed.

(** ** Concrete runs *)

Local Open Scope string_scope.

(** C9 at a reversed window (20 June to 15 June 2024) and at the same window
    the right way round (six days). *)
Lemma C9_trip_window_witness :
  run (plan_trip parse_sample silent_world "Paris" "2024-06-20" "2024-06-15"
         2 "museums" 1000 "EUR")
  = (Message "End date must be after start date.", [])
  /\ exists p log,
       run (plan_trip parse_sample silent_world "Paris" "2024-06-15"
              "2024-06-20" 2 "museums" 1000 "EUR") = (Plan p, log)
       /\ num_days p = 6%Z.
Proof.
  split.
  - exact (proj1 (C9_trip_window parse_sample silent_world "Paris"
                    "2024-06-20" "2024-06-15" 2 "museums" 1000 "EUR")
             739057%Z 739052%Z eq_refl eq_refl eq_refl).
  - destruct (proj2 (proj2 (C9_trip_window parse_sample silent_world "Paris"
                              "2024-06-15" "2024-06-20" 2 "museums" 1000
                              "EUR")) 739052%Z 739057%Z)
      as (p & log & Hrun & Hn & _).
    + repeat split; try reflexivity. discriminate.
    + discriminate.
    + exists p, log. split; [exact Hrun|exact Hn].
Defined.


(** C10 at Tokyo, two travellers, with an LLM reply that offers 20 per
    person: the estimate is the table's 10 x 2. *)
Lemma C10_transport_always_static_witness :
  exists ca log,
    run (get_comprehensive_cost_analysis answering_world "Tokyo" 1000 5 2 0 4)
    = (Some ca, log)
    /\ transport_per_day (final_estimates ca) == 20.
Proof.
  destruct (run (get_comprehensive_cost_analysis answering_world "Tokyo" 1000
                   5 2 0 4)) as [[ca|] log] eqn:H.
  - exists ca, log. split; [reflexivity|].
    rewrite (proj2 (proj2 (proj2 (proj2
               (C10_transport_always_static "Tokyo"))))
               answering_world 1000 5%Z 2%Z 0%Z 4%Z ca log H).
    reflexivity.
  - exfalso. revert H. lazy. discriminate.
Defined.

(** C3 at the priced sources for Paris: the total 179.05 is one cent above
    the sum of the stored fields. *)
Lemma C3_total_is_rounded_sum_witness :
  exists fe,
    calculate_final_estimates (priced_sources "Paris") 3 1 = Some fe
    /\ Qabs (total_per_day fe
             - (accommodation_per_night fe + food_per_day fe
                + transport_per_day fe)) <= 2 # 100.
Proof.
  destruct (calculate_final_estimates (priced_sources "Paris") 3 1)
    as [fe|] eqn:H.
  - exists fe. split; [reflexivity|].
    destruct (proj1 C3_total_is_rounded_sum _ _ _ _ H)
      as (a & f & t & _ & _ & _ & _ & _ & _ & _ & Hb).
    exact Hb.
  - exfalso. revert H. lazy. discriminate.
Defined.

(** C1 where every source answers: the hotel price wins accommodation. *)
Lemma C1_precedence_witness :
  accommodation_cost (analysis_sources answering_world "Paris") 2 = Some 120.
Proof.
  exact (proj1 (proj1 (C1_precedence (analysis_sources answering_world "Paris")
                         2))
           {| average_price := 120; price_range := "$100 - $140";
              hotel_count := 5 |} eq_refl).
Defined.

(** C8 where every source answers: the restaurant cost is per person. *)
Lemma C8_per_person_scaling_witness :
  food_cost (analysis_sources answering_world "Paris") 2
  = Some (45 * inject_Z 2).
Proof.
  exact (proj1 (proj1 (C8_per_person_scaling
                         (analysis_sources answering_world "Paris") 2))
           {| average_meal_cost := 15; daily_food_cost := 45;
              restaurant_count := 10 |} eq_refl).
Defined.

(** * Further properties of the code *)

Local Close Scope string_scope.

(** ** City keys *)

Lemma lower_char_idem (c : ascii) : lower_char (lower_char c) = lower_char c.
Proof. destruct c as [[] [] [] [] [] [] [] []]; reflexivity. Qed.

Lemma is_space_lower_char (c : ascii) : is_space (lower_char c) = is_space c.
Proof. destruct c as [[] [] [] [] [] [] [] []]; reflexivity. Qed.

Lemma lower_idem (s : string) : lower (lower s) = lower s.
Proof.
  induction s as [|c s IH]; simpl; [reflexivity|].
  rewrite lower_char_idem, IH. reflexivity.
Qed.

Lemma lstrip_lower (s : string) : lstrip (lower s) = lower (lstrip s).
Proof.
  induction s as [|c s IH]; simpl; [reflexivity|].
  rewrite is_space_lower_char. destruct (is_space c); [exact IH|reflexivity].
Qed.

Lemma lower_empty (s : string) : lower s = EmptyString -> s = EmptyString.
Proof. destruct s; simpl; [reflexivity|discriminate]. Qed.

Lemma rstrip_lower (s : string) : rstrip (lower s) = lower (rstrip s).
Proof.
  induction s as [|c s IH]; simpl; [reflexivity|].
  rewrite IH, is_space_lower_char.
  destruct (rstrip s) as [|c' r]; simpl.
  - destruct (is_space c); reflexivity.
  - reflexivity.
Qed.

Lemma strip_lower (s : string) : strip (lower s) = lower (strip s).
Proof. unfold strip. rewrite lstrip_lower, rstrip_lower. reflexivity. Qed.

Lemma lstrip_starts_kept (s : string) : starts_kept (lstrip s).
Proof.
  induction s as [|c s IH]; simpl; [exact I|].
  destruct (is_space c) eqn:E; [exact IH|exact E].
Qed.

Lemma lstrip_of_starts_kept (s : string) : starts_kept s -> lstrip s = s.
Proof. destruct s as [|c s]; simpl; [reflexivity|]. intros ->. reflexivity. Qed.

Lemma rstrip_starts_kept (s : string) : starts_kept s -> starts_kept (rstrip s).
Proof.
  destruct s as [|c s]; simpl; [exact (fun H => H)|].
  intro E. destruct (rstrip s); [rewrite E|]; exact E.
Qed.

Lemma rstrip_idem (s : string) : rstrip (rstrip s) = rstrip s.
Proof.
  induction s as [|c s IH]; simpl; [reflexivity|].
  destruct (rstrip s) as [|c' r] eqn:E.
  - destruct (is_space c) eqn:Ec; simpl; [reflexivity|].
    rewrite Ec. reflexivity.
  - change (rstrip (String c (String c' r)) = String c (String c' r)).
    simpl. simpl in IH. rewrite IH. reflexivity.
Qed.

Lemma strip_idem (s : string) : strip (strip s) = strip s.
Proof.
  unfold strip.
  rewrite (lstrip_of_starts_kept (rstrip (lstrip s))).
  - apply rstrip_idem.
  - apply rstrip_starts_kept, lstrip_starts_kept.
Qed.

Lemma city_key_idem (city : string) : city_key (city_key city) = city_key city.
Proof.
  unfold city_key.
  rewrite strip_lower, strip_idem, <- strip_lower, lower_idem. reflexivity.
Qed.

Lemma city_key_strip (city : string) : city_key (strip city) = city_key city.
Proof. unfold city_key. rewrite strip_lower, strip_idem, strip_lower. reflexivity. Qed.

Lemma city_key_lower (city : string) : city_key (lower city) = city_key city.
Proof. unfold city_key. rewrite lower_idem. reflexivity. Qed.

(** X1. The three static lookups (cost baselines, transport rates, canned
    insights) ignore the case of the city and the whitespace around it:
    the city, its lowercased form, its stripped form and its normalised key
    all give the same answers. *)
Theorem X1_lookups_ignore_case_and_padding (city : string) (trip_budget : Q)
    (num_days num_people : Z) :
  (city_key (city_key city) = city_key city
   /\ city_key (lower city) = city_key city
   /\ city_key (strip city) = city_key city)
  /\ (estimate_daily_costs (city_key city) trip_budget num_days num_people
      = estimate_daily_costs city trip_budget num_days num_people
      /\ estimate_daily_costs (lower city) trip_budget num_days num_people
         = estimate_daily_costs city trip_budget num_days num_people
      /\ estimate_daily_costs (strip city) trip_budget num_days num_people
         = estimate_daily_costs city trip_budget num_days num_people)
  /\ (get_transport_costs_api (city_key city) = get_transport_costs_api city
      /\ get_transport_costs_api (lower city) = get_transport_costs_api city
      /\ get_transport_costs_api (strip city) = get_transport_costs_api city)
  /\ (get_fallback_insights (city_key city) = get_fallback_insights city
      /\ get_fallback_insights (lower city) = get_fallback_insights city
      /\ get_fallback_insights (strip city) = get_fallback_insights city).
Proof.
  pose proof (city_key_idem city) as H1.
  pose proof (city_key_lower city) as H2.
  pose proof (city_key_strip city) as H3.
  unfold estimate_daily_costs, estimate_unrounded, estimates_for,
    get_transport_costs_api, get_fallback_insights.
  cbv zeta. rewrite H1, H2, H3. repeat split.
Qed.

(** ** More on rounding *)

Lemma round_half_even_mono (x y : Q) :
  x <= y -> (round_half_even x <= round_half_even y)%Z.
Proof.
  intro Hxy.
  destruct (Z_lt_le_dec (round_half_even y) (round_half_even x)) as [Hlt|Hle];
    [|exact Hle].
  exfalso.
  pose proof (round_half_even_error x) as Hx.
  pose proof (round_half_even_error y) as Hy.
  assert (Hstep : inject_Z (round_half_even y) + 1
                  <= inject_Z (round_half_even x)).
  { change 1 with (inject_Z 1). rewrite <- inject_Z_plus, <- Zle_Qle. lia. }
  assert (E : x == y) by (apply Qle_antisym; lra).
  apply round_half_even_eq in E. lia.
Qed.

Lemma round2_mono (x y : Q) : x <= y -> round2 x <= round2 y.
Proof.
  intro H. unfold round2.
  assert (Hk : (round_half_even (x * 100) <= round_half_even (y * 100))%Z).
  { apply round_half_even_mono. lra. }
  rewrite Zle_Qle in Hk.
  set (kx := inject_Z (round_half_even (x * 100))) in *.
  set (ky := inject_Z (round_half_even (y * 100))) in *.
  clearbody kx ky.
  assert (Ex : kx / 100 == kx * (1 # 100)) by field.
  assert (Ey : ky / 100 == ky * (1 # 100)) by field.
  rewrite Ex, Ey. lra.
Qed.

(** A whole number of cents is left as it is. *)
Lemma round2_exact (x : Q) (k : Z) : x * 100 == inject_Z k -> round2 x == x.
Proof.
  intro E. unfold round2.
  rewrite (round_half_even_eq _ _ E), round_half_even_inject_Z, <- E.
  field.
Qed.

Lemma round2_half_int (z : Z) : round2 (inject_Z z / 2) == inject_Z z / 2.
Proof.
  apply (round2_exact _ (50 * z)). rewrite inject_Z_mult.
  change (inject_Z 50) with 50. field.
Qed.

Lemma round2_double_int (z : Z) : round2 (2 * inject_Z z) == 2 * inject_Z z.
Proof.
  apply (round2_exact _ (200 * z)). rewrite inject_Z_mult.
  change (inject_Z 200) with 200. ring.
Qed.

(** ** The static fallback: range, echo of the budget, error path *)

Section FallbackRange.
Variable city : string.
Variable trip_budget : Q.
Variables num_days num_people : Z.
Hypothesis days_pos : (1 <= num_days)%Z.
Hypothesis people_pos : (1 <= num_people)%Z.

Let a := inject_Z (accommodation (estimates_for city) * num_people).
Let f := inject_Z (food (estimates_for city) * num_people).
Let b := trip_budget / inject_Z num_days.
Let r := estimate_daily_costs city trip_budget num_days num_people.

Lemma baseline_parts_pos : 0 < a /\ 0 < f.
Proof.
  destruct (estimates_for_pos city) as [Ha Hf].
  unfold a, f. split.
  - change 0 with (inject_Z 0). rewrite <- Zlt_Qlt. nia.
  - change 0 with (inject_Z 0). rewrite <- Zlt_Qlt. nia.
Qed.

Lemma fallback_unrounded : estimate_unrounded city trip_budget num_days num_people
                           = adjust_to_budget a f b.
Proof. apply estimate_unrounded_adjust. lia. Qed.

(** The adjustment multiplies both categories by one factor between one
    half and two. *)
Lemma fallback_factor :
  exists k a' f',
    adjust_to_budget a f b = Some (a', f')
    /\ a' == a * k /\ f' == f * k /\ 1 # 2 <= k <= 2.
Proof.
  destruct baseline_parts_pos as [Ha Hf].
  assert (Hpos : 0 < a + f) by lra.
  destruct (Qlt_le_dec ((a + f) * (15 # 10)) b) as [H1|H1].
  - destruct (adjust_up a f b Hpos H1) as [E Hk].
    eexists _, _, _. split; [exact E|].
    split; [reflexivity|]. split; [reflexivity|]. lra.
  - destruct (Qlt_le_dec b ((a + f) * (7 # 10))) as [H2|H2].
    + destruct (adjust_down a f b Hpos H2) as [E Hk].
      eexists _, _, _. split; [exact E|].
      split; [reflexivity|]. split; [reflexivity|]. lra.
    + exists 1, a, f. split; [apply adjust_none; split; assumption|].
      split; [ring|]. split; [ring|]. lra.
Qed.

Lemma fallback_fields :
  exists k a' f',
    daily_accommodation r = round2 a' /\ daily_food r = round2 f'
    /\ total_daily r = round2 (a' + f')
    /\ adjust_to_budget a f b = Some (a', f')
    /\ a' == a * k /\ f' == f * k /\ 1 # 2 <= k <= 2.
Proof.
  destruct fallback_factor as (k & a' & f' & E & Ha & Hf & Hk).
  exists k, a', f'.
  unfold r, estimate_daily_costs. rewrite fallback_unrounded, E.
  cbn [daily_accommodation daily_food total_daily].
  repeat split; try assumption; apply Hk.
Qed.

End FallbackRange.

Lemma half_double_bounds (z : Z) (k x : Q) :
  (0 <= z)%Z -> x == inject_Z z * k -> 1 # 2 <= k <= 2 ->
  inject_Z z / 2 <= round2 x <= 2 * inject_Z z.
Proof.
  intros Hz Hx Hk.
  pose proof (inject_Z_nonneg z Hz) as Hq.
  pose proof (round2_half_int z) as Eh.
  pose proof (round2_double_int z) as Ed.
  remember (inject_Z z) as q eqn:Eq. clear Eq Hz z.
  assert (E : q / 2 == q * (1 # 2)) by field.
  assert (Hlo : q / 2 <= x) by (rewrite Hx, E; nra).
  assert (Hhi : x <= 2 * q) by (rewrite Hx; nra).
  apply round2_mono in Hlo. apply round2_mono in Hhi.
  rewrite Eh in Hlo. rewrite Ed in Hhi. split; assumption.
Qed.

(** X2. With at least one day and one traveller, the static fallback never
    strays beyond half or double the city's baseline: this holds for the
    accommodation estimate, for the food estimate and for their total,
    whatever the budget. *)
Theorem X2_fallback_within_half_and_double (city : string) (trip_budget : Q)
    (num_days num_people : Z) :
  (1 <= num_days)%Z -> (1 <= num_people)%Z ->
  let a := inject_Z (accommodation (estimates_for city) * num_people) in
  let f := inject_Z (food (estimates_for city) * num_people) in
  let t := inject_Z (accommodation (estimates_for city) * num_people
                     + food (estimates_for city) * num_people) in
  let r := estimate_daily_costs city trip_budget num_days num_people in
  a / 2 <= daily_accommodation r <= 2 * a
  /\ f / 2 <= daily_food r <= 2 * f
  /\ t / 2 <= total_daily r <= 2 * t.
Proof.
  intros Hd Hn. cbv zeta.
  destruct (estimates_for_pos city) as [Hacc Hfood].
  destruct (fallback_fields city trip_budget num_days num_people Hd Hn)
    as (k & a' & f' & E1 & E2 & E3 & _ & Ha' & Hf' & Hk).
  rewrite E1, E2, E3.
  split; [|split].
  - apply (half_double_bounds _ k); [nia|exact Ha'|exact Hk].
  - apply (half_double_bounds _ k); [nia|exact Hf'|exact Hk].
  - apply (half_double_bounds _ k); [nia| |exact Hk].
    rewrite Ha', Hf', inject_Z_plus. ring.
Qed.

Lemma X2_fallback_within_half_and_double_witness :
  let r := estimate_daily_costs "Tokyo" 90000 3 2 in
  130 <= daily_accommodation r <= 520 /\ 35 <= daily_food r <= 140
  /\ 165 <= total_daily r <= 660.
Proof.
  assert (H1 : (1 <= 3)%Z) by lia.
  assert (H2 : (1 <= 2)%Z) by lia.
  pose proof (X2_fallback_within_half_and_double "Tokyo" 90000 3 2 H1 H2) as H.
  cbv zeta in H.
  destruct H as ([A1 A2] & [F1 F2] & [T1 T2]).
  repeat split.
  - apply (Qle_trans _ (260 / 2)); [discriminate|exact A1].
  - apply (Qle_trans _ (2 * 260)); [exact A2|discriminate].
  - apply (Qle_trans _ (70 / 2)); [discriminate|exact F1].
  - apply (Qle_trans _ (2 * 70)); [exact F2|discriminate].
  - apply (Qle_trans _ (330 / 2)); [discriminate|exact T1].
  - apply (Qle_trans _ (2 * 330)); [exact T2|discriminate].
Defined.









(** X4. The [except] branch of the static fallback is taken exactly when
    [num_days] is 0, or [num_people] is 0 with a non-zero budget (a division
    by zero in both cases).  It then returns the generic 100 / 30 / 130 per
    person and reports the city as unknown, even when the city is listed. *)
Theorem X4_fallback_error_path (city : string) (trip_budget : Q)
    (num_days num_people : Z) :
  let r := estimate_daily_costs city trip_budget num_days num_people in
  (estimate_unrounded city trip_budget num_days num_people = None
   <-> num_days = 0%Z \/ (num_people = 0%Z /\ ~ trip_budget == 0))
  /\ (estimate_unrounded city trip_budget num_days num_people = None ->
      daily_accommodation r == inject_Z (100 * num_people)
      /\ daily_food r == inject_Z (30 * num_people)
      /\ total_daily r == inject_Z (130 * num_people)
      /\ city_known r = false)
  /\ (estimate_unrounded city trip_budget num_days num_people <> None ->
      city_known r = dict_mem base_estimates (city_key city)).
Proof.
  cbv zeta. split; [|split].
  - destruct (Z.eq_dec num_days 0) as [Hd|Hd].
    + subst num_days. split; [intros _; left; reflexivity|intros _].
      reflexivity.
    + rewrite (estimate_unrounded_adjust _ _ _ _ Hd).
      destruct (estimates_for_pos city) as [Hacc Hfood].
      assert (Hdq : ~ inject_Z num_days == 0).
      { intro E. unfold Qeq in E. simpl in E. lia. }
      destruct (Z.eq_dec num_people 0) as [Hn|Hn].
      * subst num_people. rewrite !Z.mul_0_r.
        unfold adjust_to_budget. cbv zeta.
        change (inject_Z 0 + inject_Z 0) with (0 + 0).
        assert (E0 : py_div (trip_budget / inject_Z num_days) (0 + 0) = None)
          by reflexivity.
        rewrite E0.
        destruct (Qltb ((0 + 0) * (15 # 10)) (trip_budget / inject_Z num_days))
          eqn:E1.
        -- split; [intros _; right; split; [reflexivity|]|reflexivity].
           apply Qltb_true in E1. intro Hb. rewrite Hb in E1.
           unfold Qdiv in E1. lra.
        -- destruct (Qltb (trip_budget / inject_Z num_days)
                       ((0 + 0) * (7 # 10))) eqn:E2.
           ++ split; [intros _; right; split; [reflexivity|]|reflexivity].
              apply Qltb_true in E2. intro Hb. rewrite Hb in E2.
              unfold Qdiv in E2. lra.
           ++ split; [discriminate|].
              intros [H|[_ H]]; [contradiction|]. exfalso. apply H.
              apply Qltb_false in E1, E2.
              assert (Eb : trip_budget / inject_Z num_days == 0) by lra.
              assert (Em : trip_budget
                           == trip_budget / inject_Z num_days
                              * inject_Z num_days) by (field; exact Hdq).
              rewrite Em, Eb. ring.
      * split; [|intros [H|[H _]]; contradiction].
        intro E. exfalso.
        assert (Hne : ~ inject_Z (accommodation (estimates_for city) * num_people)
                        + inject_Z (food (estimates_for city) * num_people)
                        == 0).
        { rewrite <- inject_Z_plus. intro E'. unfold Qeq in E'. simpl in E'.
          nia. }
        unfold adjust_to_budget in E. cbv zeta in E.
        rewrite (py_div_nonzero _ _ Hne) in E.
        destruct (Qltb _ _) in E; [discriminate|].
        destruct (Qltb _ _) in E; discriminate.
  - intro E. unfold estimate_daily_costs. rewrite E.
    cbn [daily_accommodation daily_food total_daily city_known].
    repeat split; apply round2_inject_Z.
  - intro E. unfold estimate_daily_costs.
    destruct (estimate_unrounded city trip_budget num_days num_people)
      as [[a f]|]; [reflexivity|contradiction].
Qed.

(** ** When the aggregation raises *)


(** ** Call logs *)

Lemma enhance_log (w : world) (city : string) (ca : cost_analysis_t)
    (log : list adapter_call) :
  snd (enhance_cost_analysis_with_duckduckgo w city ca log)
  = log ++ search_calls ++ insight_calls w.
Proof.
  unfold enhance_cost_analysis_with_duckduckgo, insight_calls, search_calls.
  do 7 (rewrite bind_call; cbv beta).
  destruct (insights_truthy (w_local_insights w));
    destruct (insights_truthy (w_weather_insights w));
    cbn [negb andb orb]; unfold bind, call, ret; cbn [fst snd];
    rewrite <- ?app_assoc; reflexivity.
Qed.

Lemma analysis_log (w : world) (city : string) (trip_budget : Q)
    (num_days num_people start_date end_date : Z)
    (res : option cost_analysis_t) (log : list adapter_call) :
  run (get_comprehensive_cost_analysis w city trip_budget num_days num_people
         start_date end_date) = (res, log) ->
  log = source_calls
        ++ match res with
           | Some _ => search_calls ++ insight_calls w
           | None => []
           end.
Proof.
  unfold run, get_comprehensive_cost_analysis.
  do 5 (rewrite bind_call; cbv beta). cbv zeta.
  destruct (calculate_final_estimates _ num_days num_people) as [fe|].
  - unfold bind at 1.
    match goal with
    | |- context [enhance_cost_analysis_with_duckduckgo ?a ?b ?c ?l] =>
        pose proof (enhance_log a b c l) as Hl;
        destruct (enhance_cost_analysis_with_duckduckgo a b c l)
          as [ca' log']
    end.
    unfold ret. cbn [snd] in Hl. intro H. injection H as <- <-.
    exact Hl.
  - unfold ret. intro H. injection H as <- <-.
    rewrite app_nil_r. reflexivity.
Qed.

(** X6. One aggregation always queries the same five cost sources in the
    same order (LLM, hotel API, restaurant API, transport table, cost of
    living), whatever they answer: a source that wins does not spare the
    later ones.  When the aggregation raises nothing else is called; when it
    succeeds the seven searches follow, and the static insights are read
    exactly when both the local and the weather search came back empty. *)
Theorem X6_analysis_call_log (w : world) (city : string) (trip_budget : Q)
    (num_days num_people start_date end_date : Z) :
  let out := run (get_comprehensive_cost_analysis w city trip_budget num_days
                    num_people start_date end_date) in
  firstn 5 (snd out) = source_calls
  /\ (fst out = None -> snd out = source_calls)
  /\ (fst out <> None ->
      snd out = source_calls ++ search_calls ++ insight_calls w)
  /\ (In GetFallbackInsights (snd out)
      <-> fst out <> None
          /\ insights_truthy (w_local_insights w) = false
          /\ insights_truthy (w_weather_insights w) = false).
Proof.
  cbv zeta.
  pose proof (analysis_log w city trip_budget num_days num_people start_date
                end_date) as Hlog.
  destruct (run (get_comprehensive_cost_analysis w city trip_budget num_days
                   num_people start_date end_date)) as [res log].
  specialize (Hlog res log eq_refl).
  cbn [fst snd] in *. subst log.
  split; [|split; [|split]].
  - destruct res; reflexivity.
  - intros ->. apply app_nil_r.
  - destruct res; [reflexivity|congruence].
  - unfold insight_calls, source_calls, search_calls.
    destruct res as [ca|].
    + destruct (insights_truthy (w_local_insights w));
        destruct (insights_truthy (w_weather_insights w)); cbn [orb];
        (split;
         [intro Hin; cbn in Hin;
          repeat (destruct Hin as [Hin|Hin]; [discriminate Hin|]);
          try contradiction
         |intros (_ & H1 & H2); try discriminate]).
      * split; [discriminate|split; reflexivity].
      * cbn. repeat (right; try (left; reflexivity)).
    + split.
      * intro Hin. cbn in Hin.
        repeat (destruct Hin as [Hin|Hin]; [discriminate Hin|]).
        contradiction.
      * intros (H & _). congruence.
Qed.

Lemma appends_ret {A : Type} (a : A) : appends (ret a).
Proof. intro log. unfold ret. cbn. rewrite app_nil_r. reflexivity. Qed.

Lemma appends_call {A : Type} (c : adapter_call) (a : A) : appends (call c a).
Proof. intro log. reflexivity. Qed.

Lemma appends_bind {A B : Type} (m : traced A) (k : A -> traced B) :
  appends m -> (forall a, appends (k a)) -> appends (bind m k).
Proof.
  intros Hm Hk log. unfold bind.
  rewrite (Hm log). destruct (m []) as [a l0]. cbn [fst snd].
  rewrite (Hk a (log ++ l0)), (Hk a l0). cbn [fst snd].
  rewrite <- app_assoc. reflexivity.
Qed.

Lemma appends_enhance (w : world) (city : string) (ca : cost_analysis_t) :
  appends (enhance_cost_analysis_with_duckduckgo w city ca).
Proof.
  unfold enhance_cost_analysis_with_duckduckgo.
  repeat (apply appends_bind; [apply appends_call|intro]).
  apply appends_bind; [|intro; apply appends_ret].
  destruct (negb _ && negb _).
  - apply appends_bind; [apply appends_call|intro; apply appends_ret].
  - apply appends_ret.
Qed.

Lemma appends_analysis (w : world) (city : string) (trip_budget : Q)
    (num_days num_people start_date end_date : Z) :
  appends (get_comprehensive_cost_analysis w city trip_budget num_days
             num_people start_date end_date).
Proof.
  unfold get_comprehensive_cost_analysis.
  repeat (apply appends_bind; [apply appends_call|intro]).
  cbv zeta. destruct (calculate_final_estimates _ _ _).
  - apply appends_bind; [apply appends_enhance|intro; apply appends_ret].
  - apply appends_ret.
Qed.

Lemma plan_accepted_eq (w : world) (city : string)
    (start_date_obj end_date_obj num_people : Z) (trip_budget : Q) :
  (start_date_obj <= end_date_obj)%Z ->
  let num_days := (end_date_obj - start_date_obj + 1)%Z in
  let out := run (get_comprehensive_cost_analysis w city trip_budget num_days
                    num_people start_date_obj end_date_obj) in
  run (plan_accepted w city start_date_obj end_date_obj num_people trip_budget)
  = match w_itinerary w with
    | None => (PlanningError, opening_calls w)
    | Some _ =>
        (Plan {| num_days := num_days;
                 accommodation_budget := trip_budget * (5 # 10);
                 per_night_budget :=
                   trip_budget * (5 # 10) / inject_Z num_days;
                 lower_bound :=
                   trip_budget * (5 # 10) / inject_Z num_days * (9 # 10);
                 upper_bound :=
                   trip_budget * (5 # 10) / inject_Z num_days * (11 # 10);
                 food_budget := trip_budget * (2 # 10);
                 travel_budget := trip_budget * (1 # 10);
                 leisure_budget := trip_budget * (2 # 10);
                 daily_costs_used :=
                   fst (chosen_costs city trip_budget num_days num_people
                          (fst out));
                 plan_data_sources :=
                   snd (chosen_costs city trip_budget num_days num_people
                          (fst out)) |},
         opening_calls w ++ snd out ++ closing_calls)
    end.
Proof.
  intro Hle. cbv zeta.
  assert (Hd : ~ inject_Z (end_date_obj - start_date_obj + 1) == 0).
  { intro E. unfold Qeq in E. simpl in E. lia. }
  unfold run at 1, plan_accepted. cbv zeta.
  rewrite (py_div_nonzero _ _ Hd).
  do 3 (rewrite bind_call; cbv beta).
  assert (Hrate : forall (k : unit -> traced plan_result),
             bind (if rate_truthy (w_duckduckgo_rate w)
                   then ret tt else call GetExchangeRate tt) k
               ((([] ++ [GetCurrentWeather]) ++ [GetWeatherForecast])
                  ++ [GetCurrencyExchangeDuckduckgo])
             = k tt ([ GetCurrentWeather; GetWeatherForecast;
                       GetCurrencyExchangeDuckduckgo ]
                     ++ (if rate_truthy (w_duckduckgo_rate w)
                         then [] else [GetExchangeRate]))).
  { intro k. destruct (rate_truthy (w_duckduckgo_rate w));
      [rewrite bind_ret|rewrite bind_call]; reflexivity. }
  rewrite Hrate. cbv beta. rewrite bind_call. cbv beta.
  rewrite <- app_assoc. fold (opening_calls w).
  destruct (w_itinerary w) as [it|]; [|reflexivity].
  unfold bind at 1.
  rewrite (appends_analysis w city trip_budget
             (end_date_obj - start_date_obj + 1) num_people start_date_obj
             end_date_obj (opening_calls w)).
  unfold run.
  destruct (get_comprehensive_cost_analysis w city trip_budget
              (end_date_obj - start_date_obj + 1) num_people start_date_obj
              end_date_obj []) as [ca alog].
  cbn [fst snd].
  do 3 (rewrite bind_call; cbv beta). unfold ret, closing_calls.
  rewrite <- !app_assoc. destruct ca; reflexivity.
Qed.

Lemma plan_trip_run_accepted (parse_date : string -> option Z) (w : world)
    (city start_date end_date : string) (num_people : Z) (interests : string)
    (trip_budget : Q) (currency_code : string)
    (start_date_obj end_date_obj : Z) :
  accepted parse_date city start_date end_date currency_code num_people
    trip_budget start_date_obj end_date_obj ->
  run (plan_trip parse_date w city start_date end_date num_people interests
         trip_budget currency_code)
  = run (plan_accepted w city start_date_obj end_date_obj num_people
           trip_budget).
Proof.
  intros (Hreq & Hs & He & Hle). unfold run, plan_trip.
  rewrite Hreq, Hs, He. cbn [negb].
  assert (Hge : (end_date_obj <? start_date_obj)%Z = false)
    by (apply Z.ltb_ge; exact Hle).
  rewrite Hge. reflexivity.
Qed.

Lemma not_in_analysis_log (c : adapter_call) (w : world) (city : string)
    (trip_budget : Q) (num_days num_people start_date end_date : Z) :
  ~ In c source_calls -> ~ In c search_calls -> c <> GetFallbackInsights ->
  ~ In c (snd (run (get_comprehensive_cost_analysis w city trip_budget
                      num_days num_people start_date end_date))).
Proof.
  intros H1 H2 H3.
  destruct (run (get_comprehensive_cost_analysis w city trip_budget num_days
                   num_people start_date end_date)) as [res log] eqn:E.
  apply analysis_log in E. cbn [snd]. subst log.
  rewrite in_app_iff. intros [H|H]; [exact (H1 H)|].
  destruct res; [|exact H].
  rewrite in_app_iff in H. destruct H as [H|H]; [exact (H2 H)|].
  unfold insight_calls in H.
  destruct (insights_truthy _ || insights_truthy _); [exact H|].
  destruct H as [H|H]; [exact (H3 (eq_sym H))|exact H].
Qed.

Lemma analysis_first_calls (w : world) (city : string) (trip_budget : Q)
    (num_days num_people start_date end_date : Z) :
  firstn 5 (snd (run (get_comprehensive_cost_analysis w city trip_budget
                        num_days num_people start_date end_date)))
  = source_calls.
Proof.
  destruct (run (get_comprehensive_cost_analysis w city trip_budget num_days
                   num_people start_date end_date)) as [res log] eqn:E.
  apply analysis_log in E. cbn [snd]. subst log. destruct res; reflexivity.
Qed.

(** X7. For a request that passes the validation, [plan_trip] first asks
    for the weather, the forecast and the searched exchange rate, asks the
    exchange-rate API exactly when the searched rate is missing or zero, and
    then asks for the itinerary.  When the itinerary call raises, the result
    is the planning error and no cost source was queried.  Otherwise the
    result is a plan, and the log continues with the calls of the cost
    analysis and ends with the hotel search and the two place searches. *)
Theorem X7_plan_trip_call_order (parse_date : string -> option Z) (w : world)
    (city start_date end_date : string) (num_people : Z) (interests : string)
    (trip_budget : Q) (currency_code : string)
    (start_date_obj end_date_obj : Z) :
  accepted parse_date city start_date end_date currency_code num_people
    trip_budget start_date_obj end_date_obj ->
  let out := run (plan_trip parse_date w city start_date end_date num_people
                    interests trip_budget currency_code) in
  let analysis_calls :=
    snd (run (get_comprehensive_cost_analysis w city trip_budget
                (end_date_obj - start_date_obj + 1) num_people start_date_obj
                end_date_obj)) in
  (w_itinerary w = None ->
   out = (PlanningError, opening_calls w)
   /\ forall c, In c source_calls -> ~ In c (snd out))
  /\ (w_itinerary w <> None ->
      exists p,
        out = (Plan p, opening_calls w ++ analysis_calls ++ closing_calls)
        /\ firstn 5 analysis_calls = source_calls)
  /\ (In GetExchangeRate (snd out)
      <-> rate_truthy (w_duckduckgo_rate w) = false).
Proof.
  intros Hacc. cbv zeta.
  rewrite (plan_trip_run_accepted _ _ _ _ _ _ _ _ _ _ _ Hacc).
  destruct Hacc as (_ & _ & _ & Hle).
  rewrite (plan_accepted_eq w city start_date_obj end_date_obj num_people
             trip_budget Hle).
  cbv zeta.
  assert (Hopen : In GetExchangeRate (opening_calls w)
                  <-> rate_truthy (w_duckduckgo_rate w) = false).
  { unfold opening_calls.
    destruct (rate_truthy (w_duckduckgo_rate w)); cbn; split;
      try discriminate; try reflexivity; intro H.
    - repeat (destruct H as [H|H]; [discriminate H|]). contradiction.
    - auto 6. }
  split; [|split].
  - intro Hit. rewrite Hit. split; [reflexivity|].
    intros c Hc. cbn [snd]. unfold opening_calls, source_calls in *.
    destruct (rate_truthy (w_duckduckgo_rate w)); cbn in Hc |- *;
      intro Hin;
      repeat (destruct Hc as [Hc|Hc];
              [subst c;
               repeat (destruct Hin as [Hin|Hin]; [discriminate Hin|]);
               contradiction|]);
      contradiction.
  - intro Hit. destruct (w_itinerary w) as [it|]; [|contradiction].
    eexists. split; [reflexivity|].
    apply analysis_first_calls.
  - destruct (w_itinerary w) as [it|]; cbn [snd]; [|exact Hopen].
    rewrite !in_app_iff. rewrite Hopen. split; [|intro H; left; exact H].
    intros [H|[H|H]]; [exact H| |].
    + exfalso. revert H. apply not_in_analysis_log.
      * unfold source_calls. cbn. intuition discriminate.
      * unfold search_calls. cbn. intuition discriminate.
      * discriminate.
    + exfalso. unfold closing_calls in H. cbn in H.
      intuition discriminate.
Qed.

Lemma X7_plan_trip_call_order_witness :
  exists p,
    run (plan_trip parse_sample silent_world "Paris" "2024-06-15" "2024-06-20"
           2 "museums" 1000 "EUR")
    = (Plan p,
       opening_calls silent_world
       ++ snd (run (get_comprehensive_cost_analysis silent_world "Paris" 1000
                      6 2 739052 739057))
       ++ closing_calls).
Proof.
  assert (Hacc : accepted parse_sample "Paris" "2024-06-15" "2024-06-20"
                   "EUR" 2 1000 739052 739057).
  { repeat split; try reflexivity. discriminate. }
  destruct (proj1 (proj2 (X7_plan_trip_call_order parse_sample silent_world
                            "Paris" "2024-06-15" "2024-06-20" 2 "museums"
                            1000 "EUR" 739052 739057 Hacc)))
    as (p & Hrun & _).
  - discriminate.
  - exists p. exact Hrun.
Defined.

(** X8. A plan shows the static per-city estimates, under the source label
    "Basic estimates", exactly when the aggregation raised; in every other
    case, sources that are merely empty included, it shows the aggregated
    estimates and their source list, which ends with the search tag. *)
Theorem X8_plan_costs_by_outcome (parse_date : string -> option Z) (w : world)
    (city start_date end_date : string) (num_people : Z) (interests : string)
    (trip_budget : Q) (currency_code : string)
    (start_date_obj end_date_obj : Z) :
  accepted parse_date city start_date end_date currency_code num_people
    trip_budget start_date_obj end_date_obj ->
  w_itinerary w <> None ->
  let num_days := (end_date_obj - start_date_obj + 1)%Z in
  exists p log,
    run (plan_trip parse_date w city start_date end_date num_people interests
           trip_budget currency_code) = (Plan p, log)
    /\ (calculate_final_estimates (analysis_sources w city) num_days
          num_people = None ->
        daily_costs_used p
        = FromFallback
            (estimate_daily_costs city trip_budget num_days num_people)
        /\ plan_data_sources p = ["Basic estimates"%string])
    /\ (forall fe,
          calculate_final_estimates (analysis_sources w city) num_days
            num_people = Some fe ->
          daily_costs_used p
          = FromAnalysis (append_source fe "DuckDuckGo real-time search")
          /\ plan_data_sources p
             = tracked_sources (analysis_sources w city)
               ++ ["DuckDuckGo real-time search"%string])
    /\ (plan_data_sources p = ["Basic estimates"%string]
        <-> calculate_final_estimates (analysis_sources w city) num_days
              num_people = None).
Proof.
  intros Hacc Hit. cbv zeta.
  rewrite (plan_trip_run_accepted _ _ _ _ _ _ _ _ _ _ _ Hacc).
  destruct Hacc as (_ & _ & _ & Hle).
  rewrite (plan_accepted_eq w city start_date_obj end_date_obj num_people
             trip_budget Hle).
  cbv zeta. destruct (w_itinerary w) as [it|]; [|contradiction].
  eexists _, _. split; [reflexivity|].
  cbn [daily_costs_used plan_data_sources].
  destruct (calculate_final_estimates (analysis_sources w city)
              (end_date_obj - start_date_obj + 1) num_people) as [fe|] eqn:E.
  - destruct (analysis_some w city trip_budget
                (end_date_obj - start_date_obj + 1) num_people start_date_obj
                end_date_obj fe [] E) as (ca & alog & Hrun & _ & Hfe).
    unfold run. rewrite Hrun. cbn [fst snd chosen_costs].
    rewrite Hfe.
    assert (Hds : data_sources (append_source fe "DuckDuckGo real-time search")
                  = tracked_sources (analysis_sources w city)
                    ++ ["DuckDuckGo real-time search"%string]).
    { destruct (calculate_final_estimates_inv _ _ _ _ E)
        as (a & f & t & _ & _ & _ & _ & _ & _ & _ & Hs).
      unfold append_source. cbn [data_sources]. rewrite Hs. reflexivity. }
    split; [discriminate|]. split.
    + intros fe' E'. injection E' as <-. split; [reflexivity|exact Hds].
    + split; [|discriminate]. rewrite Hds. intro H. exfalso.
      unfold tracked_sources in H.
      destruct (truthy_opt _ (hotel_prices _));
        destruct (truthy_opt _ (food_costs _));
        destruct (llm_truthy _); discriminate H.
  - unfold run.
    rewrite (analysis_none w city trip_budget
               (end_date_obj - start_date_obj + 1) num_people start_date_obj
               end_date_obj [] E).
    cbn [fst snd chosen_costs].
    split; [intros _; split; reflexivity|].
    split; [discriminate|]. split; reflexivity.
Qed.

Lemma X8_plan_costs_by_outcome_witness :
  exists p log,
    run (plan_trip parse_sample broken_llm_world "Paris" "2024-06-15"
           "2024-06-20" 2 "museums" 1000 "EUR") = (Plan p, log)
    /\ plan_data_sources p = ["Basic estimates"%string].
Proof.
  assert (Hacc : accepted parse_sample "Paris" "2024-06-15" "2024-06-20"
                   "EUR" 2 1000 739052 739057).
  { repeat split; try reflexivity. discriminate. }
  assert (Hit : w_itinerary broken_llm_world <> None) by discriminate.
  destruct (X8_plan_costs_by_outcome parse_sample broken_llm_world "Paris"
              "2024-06-15" "2024-06-20" 2 "museums" 1000 "EUR" 739052 739057
              Hacc Hit) as (p & log & Hrun & Hnone & _).
  exists p, log. split; [exact Hrun|]. apply Hnone. reflexivity.
Defined.

(** ** The budget summary *)

Lemma budget_summary_some (daily_costs : daily_estimate) (trip_budget : Q)
    (num_days num_people : Z) :
  (1 <= num_days)%Z ->
  budget_summary daily_costs trip_budget num_days num_people
  = Some {| shown_accommodation := summary_accommodation daily_costs;
            shown_food := summary_food daily_costs;
            shown_transport := summary_transport daily_costs num_people;
            shown_total := summary_total daily_costs;
            shown_trip_cost := summary_total daily_costs * inject_Z num_days;
            shown_daily_budget := trip_budget / inject_Z num_days;
            within_budget :=
              Qle_bool (summary_total daily_costs)
                (trip_budget / inject_Z num_days) |}.
Proof.
  intro Hd. unfold budget_summary.
  rewrite py_div_nonzero; [reflexivity|].
  intro E. unfold Qeq in E. simpl in E. lia.
Qed.

(** X9. In the budget summary built on the static fallback, the transport
    line shows 8 per traveller although the fallback estimates no transport,
    and the total line leaves it out: the three category lines exceed the
    total by 8 x people, up to one cent of rounding.  In the summary built
    on the aggregated estimates the total covers all three lines, up to two
    cents of rounding. *)
Theorem X9_summary_total_and_lines (city : string) (trip_budget : Q)
    (num_days num_people : Z) :
  (1 <= num_days)%Z ->
  (exists s,
     budget_summary
       (FromFallback (estimate_daily_costs city trip_budget num_days num_people))
       trip_budget num_days num_people = Some s
     /\ shown_transport s = inject_Z (8 * num_people)
     /\ Qabs (shown_accommodation s + shown_food s + shown_transport s
              - shown_total s - inject_Z (8 * num_people)) <= 1 # 100)
  /\ (forall results fe,
        calculate_final_estimates results num_days num_people = Some fe ->
        exists s,
          budget_summary (FromAnalysis fe) trip_budget num_days num_people
          = Some s
          /\ shown_transport s = transport_per_day fe
          /\ Qabs (shown_accommodation s + shown_food s + shown_transport s
                   - shown_total s) <= 2 # 100).
Proof.
  intro Hd. split.
  - eexists. split; [apply budget_summary_some; exact Hd|].
    cbn [shown_accommodation shown_food shown_transport shown_total
         summary_accommodation summary_food summary_transport summary_total].
    split; [reflexivity|].
    destruct (estimate_daily_costs_shape city trip_budget num_days num_people)
      as (a & f & Ha & Hf & Ht & _).
    rewrite Ha, Hf, Ht.
    pose proof (round2_sum2 a f) as H.
    apply Qabs_Qle_condition in H. apply Qabs_Qle_condition. lra.
  - intros results fe E.
    eexists. split; [apply budget_summary_some; exact Hd|].
    cbn [shown_accommodation shown_food shown_transport shown_total
         summary_accommodation summary_food summary_transport summary_total].
    split; [reflexivity|].
    destruct (calculate_final_estimates_inv _ _ _ _ E)
      as (a & f & t & _ & _ & _ & H1 & H2 & H3 & H4 & _).
    rewrite H1, H2, H3, H4.
    pose proof (round2_sum3 a f t) as H.
    apply Qabs_Qle_condition in H. apply Qabs_Qle_condition. lra.
Qed.

Lemma X9_summary_total_and_lines_witness :
  exists s,
    budget_summary (FromFallback (estimate_daily_costs "Paris" 1000 5 2))
      1000 5 2 = Some s
    /\ shown_transport s = inject_Z 16.
Proof.
  assert (Hd : (1 <= 5)%Z) by lia.
  destruct (proj1 (X9_summary_total_and_lines "Paris" 1000 5 2 Hd))
    as (s & Hs & Ht & _).
  exists s. split; [exact Hs|exact Ht].
Defined.



(** ** The per-night band and the hotel price filter *)




(** ** The restaurant sample *)

Lemma convert_place_unpriced (place_type : string) (p : raw_place) :
  estimated_cost (convert_place place_type p) = None <-> unpriced p.
Proof.
  unfold convert_place, unpriced.
  repeat match goal with
         | |- context [match ?x with _ => _ end] => destruct x
         end;
    cbn [estimated_cost]; split; intro H; try reflexivity;
    try discriminate; try lia; try exact I.
Qed.

Lemma convert_restaurant_cost (p : raw_place) (c : Z) :
  estimated_cost (convert_place "restaurant" p) = Some c ->
  (0 <= c <= 100)%Z
  /\ (c = 0%Z <-> raw_price_level p = Some 0%Z).
Proof.
  unfold convert_place.
  assert (R : is_restaurant "restaurant" = true) by reflexivity.
  rewrite R. clear R.
  repeat match goal with
         | |- context [match ?x with _ => _ end] => destruct x
         end;
    cbn; intro H; try discriminate; injection H as <-;
    (split; [lia|split; intro E; try reflexivity; try discriminate E]).
Qed.

(** What the loop over the restaurants accumulates. *)
Lemma count_restaurants_spec (raws : list raw_place) (total valid : Z) :
  let out :=
    fold_left count_restaurant (map (convert_place "restaurant") raws)
      (total, valid) in
  (valid <= snd out <= valid + Z.of_nat (length raws))%Z
  /\ (total <= fst out <= total + 100 * (snd out - valid))%Z
  /\ (snd out = valid <-> Forall unpriced raws)
  /\ (Forall (fun p => unpriced p \/ raw_price_level p = Some 0%Z) raws ->
      fst out = total).
Proof.
  cbv zeta. revert total valid.
  induction raws as [|p raws IH]; intros total valid.
  - cbn [map fold_left length fst snd].
    split; [lia|]. split; [lia|].
    split; [split; [intros _; constructor|reflexivity]|].
    intros _. reflexivity.
  - cbn [map fold_left length].
    destruct (estimated_cost (convert_place "restaurant" p)) as [c|] eqn:E.
    + destruct (convert_restaurant_cost p c E) as [Hc Hz].
      assert (Estep : count_restaurant (total, valid)
                        (convert_place "restaurant" p)
                      = (total + c, valid + 1)%Z).
      { unfold count_restaurant. rewrite E. reflexivity. }
      rewrite Estep.
      specialize (IH (total + c)%Z (valid + 1)%Z).
      destruct IH as (H1 & H2 & H3 & H4).
      rewrite Nat2Z.inj_succ.
      split; [lia|]. split; [lia|]. split.
      * split; [lia|]. intro HF. inversion HF as [|? ? Hp _]. subst.
        apply (convert_place_unpriced "restaurant") in Hp. congruence.
      * intro HF. inversion HF as [|? ? Hp HF']. subst.
        rewrite (H4 HF').
        destruct Hp as [Hp|Hp].
        -- apply (convert_place_unpriced "restaurant") in Hp. congruence.
        -- apply Hz in Hp. lia.
    + assert (Estep : count_restaurant (total, valid)
                        (convert_place "restaurant" p)
                      = (total, valid)).
      { unfold count_restaurant. rewrite E. reflexivity. }
      rewrite Estep.
      specialize (IH total valid). destruct IH as (H1 & H2 & H3 & H4).
      rewrite Nat2Z.inj_succ.
      split; [lia|]. split; [lia|]. split.
      * rewrite H3. split; intro HF.
        -- constructor; [|exact HF].
           apply (convert_place_unpriced "restaurant"). exact E.
        -- inversion HF. assumption.
      * intro HF. inversion HF. subst. apply H4. assumption.
Qed.

Lemma get_food_costs_api_spec (answer : option (list raw_place)) :
  let raws := match answer with Some results => firstn 10 results | None => [] end in
  let out :=
    fold_left count_restaurant (map (convert_place "restaurant") raws)
      (0, 0)%Z in
  get_food_costs_api answer
  = if (0 <? snd out)%Z then
      Some {| average_meal_cost := inject_Z (fst out) / inject_Z (snd out);
              daily_food_cost := inject_Z (fst out) / inject_Z (snd out) * 3;
              restaurant_count := snd out |}
    else None.
Proof.
  cbv zeta. unfold get_food_costs_api, get_google_places. cbv zeta.
  destruct answer as [results|]; [|reflexivity].
  destruct (map (convert_place "restaurant") (firstn 10 results)) as [|x l] eqn:E.
  - reflexivity.
  - destruct (fold_left count_restaurant (x :: l) (0, 0)%Z) as [total valid].
    reflexivity.
Qed.

(** X12. The restaurant-based food estimate.  It exists exactly when at
    least one of the first ten places found has a price level from 0 to 4.
    It then averages between 1 and 10 restaurants, the average meal cost
    lies between 0 and 100, and the daily food cost is three meals: between
    0 and 300. *)
Theorem X12_food_sample (answer : option (list raw_place)) :
  let raws := match answer with Some results => firstn 10 results | None => [] end in
  (get_food_costs_api answer = None <-> Forall unpriced raws)
  /\ (forall fc,
        get_food_costs_api answer = Some fc ->
        (1 <= restaurant_count fc <= 10)%Z
        /\ 0 <= average_meal_cost fc <= 100
        /\ daily_food_cost fc == 3 * average_meal_cost fc
        /\ 0 <= daily_food_cost fc <= 300).
Proof.
  cbv zeta. rewrite get_food_costs_api_spec. cbv zeta.
  set (raws := match answer with
               | Some results => firstn 10 results
               | None => []
               end).
  assert (Hlen : (Z.of_nat (length raws) <= 10)%Z).
  { unfold raws. destruct answer as [results|]; [|cbn; lia].
    rewrite length_firstn. lia. }
  destruct (count_restaurants_spec raws 0 0) as (H1 & H2 & H3 & _).
  cbv zeta in *.
  destruct (fold_left count_restaurant (map (convert_place "restaurant") raws)
              (0, 0)%Z) as [total valid].
  cbn [fst snd] in *.
  destruct (0 <? valid)%Z eqn:Ev.
  - apply Z.ltb_lt in Ev. split.
    + split; [discriminate|]. intro HF. apply H3 in HF. lia.
    + intros fc E. injection E as <-.
      cbn [restaurant_count average_meal_cost daily_food_cost].
      assert (Hv : 0 < inject_Z valid).
      { change 0 with (inject_Z 0). rewrite <- Zlt_Qlt. exact Ev. }
      assert (Ht0 : 0 <= inject_Z total) by (apply inject_Z_nonneg; lia).
      assert (Ht1 : inject_Z total <= 100 * inject_Z valid).
      { change 100 with (inject_Z 100). rewrite <- inject_Z_mult, <- Zle_Qle.
        lia. }
      assert (A0 : 0 <= inject_Z total / inject_Z valid).
      { apply Qle_shift_div_l; [exact Hv|lra]. }
      assert (A1 : inject_Z total / inject_Z valid <= 100).
      { apply Qle_shift_div_r; [exact Hv|lra]. }
      split; [lia|]. split; [split; assumption|].
      split; [ring|]. lra.
  - apply Z.ltb_ge in Ev. split.
    + split; [intros _; apply H3; lia|reflexivity].
    + discriminate.
Qed.

(** X13. When every priced restaurant of the sample is free (price level 0)
    the restaurant-based daily food cost is 0, and the aggregation takes it:
    the food estimate is 0 whatever the LLM replied. *)
Theorem X13_free_sample_zero_food (answer : option (list raw_place))
    (results : list raw_place) (w : world) (city : string)
    (num_days num_people : Z) :
  answer = Some results ->
  Forall (fun p => unpriced p \/ raw_price_level p = Some 0%Z)
    (firstn 10 results) ->
  ~ Forall unpriced (firstn 10 results) ->
  w_food w = get_food_costs_api answer ->
  exists fc,
    get_food_costs_api answer = Some fc
    /\ daily_food_cost fc == 0
    /\ food_cost (analysis_sources w city) num_people
       = Some (daily_food_cost fc * inject_Z num_people)
    /\ forall fe,
         calculate_final_estimates (analysis_sources w city) num_days
           num_people = Some fe ->
         food_per_day fe == 0.
Proof.
  intros -> Hfree Hsome Hw.
  pose proof (get_food_costs_api_spec (Some results)) as Hspec.
  cbv zeta in Hspec.
  destruct (count_restaurants_spec (firstn 10 results) 0 0)
    as (H1 & H2 & H3 & H4).
  cbv zeta in *. specialize (H4 Hfree).
  destruct (fold_left count_restaurant
              (map (convert_place "restaurant") (firstn 10 results))
              (0, 0)%Z) as [total valid].
  cbn [fst snd] in *. subst total.
  assert (Hv : (0 < valid)%Z).
  { destruct (Z.eq_dec valid 0) as [E|E]; [|lia].
    exfalso. apply Hsome, H3. exact E. }
  apply Z.ltb_lt in Hv. rewrite Hv in Hspec. apply Z.ltb_lt in Hv.
  eexists. split; [exact Hspec|].
  cbn [daily_food_cost].
  assert (Hz : inject_Z 0 / inject_Z valid * 3 == 0).
  { unfold Qdiv. change (inject_Z 0) with 0. ring. }
  split; [exact Hz|].
  assert (Hfood : food_costs (analysis_sources w city)
                  = Some {| average_meal_cost := inject_Z 0 / inject_Z valid;
                            daily_food_cost := inject_Z 0 / inject_Z valid * 3;
                            restaurant_count := valid |}).
  { cbn [analysis_sources food_costs]. rewrite Hw. exact Hspec. }
  pose proof (food_cost_api (analysis_sources w city) num_people _ Hfood)
    as Hfc.
  cbn [daily_food_cost] in Hfc.
  split; [exact Hfc|].
  intros fe E.
  destruct (calculate_final_estimates_inv _ _ _ _ E)
    as (a & f & t & _ & Hf & _ & _ & Hfd & _).
  rewrite Hfc in Hf. injection Hf as <-. rewrite Hfd.
  rewrite (round2_eq _ 0); [reflexivity|].
  rewrite Hz. ring.
Qed.

(** Two free cafes and a place without a price level, and an LLM that
    estimates 50 a day for food. *)
Lemma X13_free_sample_zero_food_witness :
  let sample :=
    [ {| raw_price_level := Some 0%Z |}; {| raw_price_level := None |};
      {| raw_price_level := Some 0%Z |} ] in
  let w :=
    {| w_llm := w_llm answering_world; w_hotel := None;
       w_food := get_food_costs_api (Some sample);
       w_cost_of_living := None; w_prices := fun _ => [];
       w_local_insights := []; w_weather_insights := [];
       w_travel_alerts := []; w_duckduckgo_rate := None;
       w_itinerary := None |} in
  exists fc,
    get_food_costs_api (Some sample) = Some fc
    /\ food_cost (analysis_sources w "Paris") 2
       = Some (daily_food_cost fc * inject_Z 2).
Proof.
  cbv zeta.
  destruct (X13_free_sample_zero_food
              (Some [ {| raw_price_level := Some 0%Z |};
                      {| raw_price_level := None |};
                      {| raw_price_level := Some 0%Z |} ])
              [ {| raw_price_level := Some 0%Z |};
                {| raw_price_level := None |};
                {| raw_price_level := Some 0%Z |} ]
              {| w_llm := w_llm answering_world; w_hotel := None;
                 w_food := get_food_costs_api
                             (Some [ {| raw_price_level := Some 0%Z |};
                                     {| raw_price_level := None |};
                                     {| raw_price_level := Some 0%Z |} ]);
                 w_cost_of_living := None; w_prices := fun _ => [];
                 w_local_insights := []; w_weather_insights := [];
                 w_travel_alerts := []; w_duckduckgo_rate := None;
                 w_itinerary := None |}
              "Paris" 5 2 eq_refl)
    as (fc & Hfc & _ & Hcost & _).
  - cbn [firstn].
    repeat (apply Forall_cons; [first [right; reflexivity|left; exact I]|]).
    apply Forall_nil.
  - intro HF. cbn [firstn] in HF. inversion HF as [|? ? Hp _].
    unfold unpriced in Hp. cbn in Hp. lia.
  - reflexivity.
  - exists fc. split; [exact Hfc|exact Hcost].
Defined.

(** ** The hotel price sample *)


Lemma collect_prices_none (hotels : list json) :
  collect_prices hotels = None
  <-> exists hotel, In hotel hotels /\ gross_price hotel = None.
Proof.
  induction hotels as [|hotel rest IH]; cbn.
  - split; [discriminate|intros (h & [] & _)].
  - destruct (gross_price hotel) as [price|] eqn:Ep.
    + destruct (collect_prices rest) as [ps|].
      * split; [discriminate|].
        intros (h & [<-|Hin] & Hn); [congruence|].
        destruct IH as [_ IH]. discriminate IH. exists h. split; assumption.
      * split; [intros _|reflexivity].
        destruct IH as [IH _]. destruct (IH eq_refl) as (h & Hin & Hn).
        exists h. split; [right; exact Hin|exact Hn].
    + split; [intros _|reflexivity].
      exists hotel. split; [left; reflexivity|exact Ep].
Qed.






(** X15. One malformed hotel among the first five of the reply (not an
    object, a price breakdown that is not an object, or a gross price that
    is not a number) voids the whole hotel estimate, however many well
    formed hotels surround it; hotels beyond the fifth are not looked at. *)
Theorem X15_malformed_hotel_voids_estimate (fields : list (string * json))
    (items : list json) (bad : json) :
  dict_get fields "result" = Some (JArr items) ->
  (In bad (firstn 5 items) -> gross_price bad = None ->
   get_hotel_prices_api (Some (JObj fields)) = None)
  /\ ((5 <= length items)%nat ->
      forall more,
        get_hotel_prices_api
          (Some (JObj [("result"%string, JArr (firstn 5 items ++ more))]))
        = get_hotel_prices_api (Some (JObj fields))).
Proof.
  intro Hres. split.
  - intros Hin Hbad.
    unfold get_hotel_prices_api, counted_prices, json_get. rewrite Hres.
    destruct items as [|i0 items']; [destruct Hin|].
    cbn [json_truthy].
    assert (E : collect_prices (firstn 5 (i0 :: items')) = None).
    { apply collect_prices_none. exists bad. split; assumption. }
    rewrite E. reflexivity.
  - intros Hge more.
    unfold get_hotel_prices_api, counted_prices, json_get. rewrite Hres.
    cbn [dict_get]. rewrite String.eqb_refl.
    assert (Ef : firstn 5 (firstn 5 items ++ more) = firstn 5 items).
    { rewrite firstn_app, firstn_firstn, length_firstn.
      replace (5 - Nat.min 5 (length items))%nat with 0%nat by lia.
      rewrite Nat.min_id. cbn [firstn]. apply app_nil_r. }
    rewrite Ef.
    destruct items as [|i0 items']; [cbn in Hge; lia|].
    reflexivity.
Qed.

Lemma X15_malformed_hotel_voids_estimate_witness :
  get_hotel_prices_api
    (Some (JObj [ ("result",
                   JArr [ JObj [ ("price_breakdown",
                                  JObj [ ("gross_price", JNum 100) ]) ];
                          JObj [ ("price_breakdown",
                                  JObj [ ("gross_price", JStr "n/a") ]) ] ])
                ]%string))
  = None.
Proof.
  refine (proj1 (X15_malformed_hotel_voids_estimate
                   [ ("result",
                      JArr [ JObj [ ("price_breakdown",
                                     JObj [ ("gross_price", JNum 100) ]) ];
                             JObj [ ("price_breakdown",
                                     JObj [ ("gross_price", JStr "n/a") ]) ] ])
                   ]%string
                   [ JObj [ ("price_breakdown",
                             JObj [ ("gross_price", JNum 100) ]) ];
                     JObj [ ("price_breakdown",
                             JObj [ ("gross_price", JStr "n/a") ]) ] ]%string
                   (JObj [ ("price_breakdown",
                            JObj [ ("gross_price", JStr "n/a") ]) ]%string)
                   eq_refl) _ eq_refl).
  cbn. right. left. reflexivity.
Defined.

(** ** Searches with retry *)

Lemma retry_loop_spec {A : Type} (search : nat -> list A) (remaining : nat) :
  forall attempt,
    let out := retry_loop search attempt remaining in
    (attempt <= snd out <= attempt + remaining)%nat
    /\ (forall k, (attempt <= k)%nat -> (k + 1 < snd out)%nat -> search k = [])
    /\ (fst out <> [] ->
        (attempt < snd out)%nat /\ fst out = search (snd out - 1)%nat)
    /\ (fst out = [] ->
        snd out = (attempt + remaining)%nat
        /\ forall k, (attempt <= k < attempt + remaining)%nat -> search k = []).
Proof.
  induction remaining as [|r IH]; intro attempt; cbn [retry_loop].
  - cbv zeta. cbn [fst snd].
    split; [lia|]. split; [intros k H1 H2; lia|].
    split; [intro H; congruence|].
    intros _. split; [lia|]. intros k H. lia.
  - cbv zeta. destruct (search attempt) as [|x l] eqn:E.
    + specialize (IH (S attempt)). cbv zeta in IH.
      destruct IH as (H1 & H2 & H3 & H4).
      split; [lia|]. split; [|split].
      * intros k Hk1 Hk2.
        destruct (Nat.eq_dec k attempt) as [->|Hne]; [exact E|].
        apply H2; lia.
      * intro Hne. destruct (H3 Hne) as [H5 H6]. split; [lia|exact H6].
      * intro He. destruct (H4 He) as [H5 H6]. split; [lia|].
        intros k Hk.
        destruct (Nat.eq_dec k attempt) as [->|Hne]; [exact E|].
        apply H6. lia.
    + cbn [fst snd]. split; [lia|]. split; [|split].
      * intros k Hk1 Hk2. lia.
      * intros _. split; [lia|].
        replace (S attempt - 1)%nat with attempt by lia. symmetry. exact E.
      * discriminate.
Qed.

(** X16. A search with retry makes between 1 and [max_retries + 1] calls.
    It stops at the first call that returns something and returns exactly
    that answer; every earlier call returned nothing.  It returns the empty
    list only when all [max_retries + 1] calls returned nothing. *)
Theorem X16_retry_first_answer {A : Type} (search : nat -> list A)
    (max_retries : nat) :
  let out := search_duckduckgo_with_retry search max_retries in
  (1 <= snd out <= max_retries + 1)%nat
  /\ (forall k, (k + 1 < snd out)%nat -> search k = [])
  /\ (fst out <> [] -> fst out = search (snd out - 1)%nat)
  /\ (fst out = []
      <-> forall k, (k <= max_retries)%nat -> search k = []).
Proof.
  cbv zeta. unfold search_duckduckgo_with_retry.
  pose proof (retry_loop_spec search (max_retries + 1) 0) as H.
  cbv zeta in H. destruct H as (H1 & H2 & H3 & H4).
  destruct (retry_loop search 0 (max_retries + 1)) as [res calls].
  cbn [fst snd] in *.
  assert (Hcalls : (1 <= calls)%nat).
  { destruct res as [|x l].
    - destruct (H4 eq_refl) as [-> _]. lia.
    - assert (Hne : x :: l <> []) by discriminate.
      destruct (H3 Hne). lia. }
  split; [lia|]. split; [|split].
  - intros k Hk. apply H2; lia.
  - intro Hne. apply H3. exact Hne.
  - split.
    + intros He k Hk. destruct (H4 He) as [_ H5]. apply H5. lia.
    + intro Hall. destruct res as [|x l]; [reflexivity|].
      assert (Hne : x :: l <> []) by discriminate.
      destruct (H3 Hne) as [_ H6].
      rewrite (Hall (calls - 1)%nat) in H6; [discriminate|lia].
Qed.

Lemma retry_once_empty (search : nat -> list string) :
  fst (search_duckduckgo_with_retry search 1) = []
  <-> search 0%nat = [] /\ search 1%nat = [].
Proof.
  unfold search_duckduckgo_with_retry. cbn [Nat.add retry_loop].
  destruct (search 0%nat) as [|x l]; [|cbn; split; [discriminate|]].
  - destruct (search 1%nat) as [|y m]; cbn; split; try discriminate; auto.
    intros [_ H]. discriminate H.
  - intros [H _]. discriminate H.
Qed.

Lemma set_key_truthy (d : insights) (query : string) :
  insights_truthy (set_key d query) = true.
Proof.
  unfold set_key. destruct (existsb (String.eqb query) d) eqn:E.
  - destruct d; [discriminate E|reflexivity].
  - destruct d; reflexivity.
Qed.

Lemma collect_insights_truthy (search : string -> nat -> list string)
    (queries : list string) :
  insights_truthy (collect_insights search queries) = false
  <-> Forall (fun q => search q 0%nat = [] /\ search q 1%nat = []) queries.
Proof.
  unfold collect_insights.
  assert (H : forall acc,
             insights_truthy
               (fold_left
                  (fun insights query =>
                     match fst (search_duckduckgo_with_retry (search query) 1)
                     with
                     | [] => insights
                     | _ => set_key insights query
                     end) queries acc) = false
             <-> insights_truthy acc = false
                 /\ Forall (fun q => search q 0%nat = [] /\ search q 1%nat = [])
                      queries).
  { induction queries as [|q qs IH]; intro acc; cbn [fold_left].
    - split; [intro H; split; [exact H|constructor]|intros [H _]; exact H].
    - rewrite IH.
      destruct (fst (search_duckduckgo_with_retry (search q) 1)) as [|x l] eqn:E.
      + apply retry_once_empty in E. split.
        * intros [H1 H2]. split; [exact H1|constructor; assumption].
        * intros [H1 H2]. inversion H2. split; assumption.
      + rewrite set_key_truthy. split; [intros [H _]; discriminate H|].
        intros [_ H2]. inversion H2 as [|? ? Hq _]. subst.
        apply retry_once_empty in Hq. rewrite E in Hq. discriminate Hq. }
  rewrite H. split; [intros [_ HF]; exact HF|intro HF; split; [reflexivity|exact HF]].
Qed.

(** X17. With the insight answers computed by the searches (three local
    queries and two weather queries, each retried once), the enhancement
    reads the static insights exactly when all ten of these search calls
    return nothing.  Travel-alert searches play no part in that decision. *)
Theorem X17_static_insights_iff_searches_empty
    (search : string -> nat -> list string) (city : string) (base : world)
    (ca : cost_analysis_t) :
  let w := searching_world search city base in
  In GetFallbackInsights
    (snd (run (enhance_cost_analysis_with_duckduckgo w city ca)))
  <-> Forall (fun q => search q 0%nat = [] /\ search q 1%nat = [])
        (local_queries city ++ weather_queries city).
Proof.
  cbv zeta. unfold run. rewrite enhance_log.
  rewrite Forall_app.
  rewrite <- (collect_insights_truthy search (local_queries city)).
  rewrite <- (collect_insights_truthy search (weather_queries city)).
  unfold insight_calls, searching_world, get_local_insights_duckduckgo,
    get_weather_insights_duckduckgo.
  cbn [w_local_insights w_weather_insights].
  destruct (insights_truthy (collect_insights search (local_queries city)));
    destruct (insights_truthy (collect_insights search (weather_queries city)));
    cbn [orb]; split; intro H;
    try (destruct H as [H1 H2]; discriminate);
    try (split; reflexivity);
    try (cbn in H; unfold search_calls in H; cbn in H;
         repeat (destruct H as [H|H]; [discriminate H|]); contradiction).
  cbn. unfold search_calls. cbn. auto 10.
Qed.

(** ** The JSON part of a formatted itinerary *)

Lemma str_app_assoc (a b c : string) :
  ((a ++ b) ++ c)%string = (a ++ (b ++ c))%string.
Proof.
  induction a as [|x a IH]; cbn [append]; [reflexivity|].
  rewrite IH. reflexivity.
Qed.

Lemma str_length_app (a b : string) :
  String.length (a ++ b) = (String.length a + String.length b)%nat.
Proof.
  induction a as [|x a IH]; cbn [append String.length]; [reflexivity|].
  rewrite IH. reflexivity.
Qed.

Lemma find_app (c : ascii) (pre s : string) :
  find c pre = None ->
  find c (pre ++ s)
  = option_map (Nat.add (String.length pre)) (find c s).
Proof.
  induction pre as [|a pre IH]; cbn [append find String.length]; intro H.
  - destruct (find c s); reflexivity.
  - destruct (Ascii.eqb a c); [discriminate|].
    destruct (find c pre) eqn:E; [discriminate|].
    rewrite IH by reflexivity. destruct (find c s); reflexivity.
Qed.

Lemma rfind_app_none (c : ascii) (s post : string) :
  rfind c post = None -> rfind c (s ++ post) = rfind c s.
Proof.
  intro H. induction s as [|a s IH]; cbn [append rfind]; [exact H|].
  rewrite IH. reflexivity.
Qed.

Lemma rfind_app_some (c : ascii) (pre s : string) (j : nat) :
  rfind c s = Some j ->
  rfind c (pre ++ s) = Some (String.length pre + j)%nat.
Proof.
  intro H. induction pre as [|a pre IH]; cbn [append rfind String.length];
    [exact H|].
  rewrite IH. reflexivity.
Qed.

Lemma rfind_last (c : ascii) (body : string) :
  rfind c (body ++ String c EmptyString) = Some (String.length body).
Proof.
  induction body as [|a body IH]; cbn [append rfind String.length].
  - rewrite Ascii.eqb_refl. reflexivity.
  - rewrite IH. reflexivity.
Qed.

Lemma substring_zero (n : nat) (s : string) : substring n 0 s = EmptyString.
Proof.
  revert n; induction s as [|a s IH]; intros [|n]; cbn; auto.
Qed.

Lemma substring_prefix (j post : string) :
  substring 0 (String.length j) (j ++ post) = j.
Proof.
  induction j as [|a j IH]; cbn [append String.length].
  - apply substring_zero.
  - cbn [substring]. rewrite IH. reflexivity.
Qed.

Lemma substring_skip (pre s : string) (m : nat) :
  substring (String.length pre) m (pre ++ s) = substring 0 m s.
Proof.
  induction pre as [|a pre IH]; cbn [append String.length substring];
    [reflexivity | exact IH].
Qed.

Lemma slice_middle (pre j post : string) :
  slice (pre ++ j ++ post) (String.length pre)
    (String.length pre + String.length j)
  = j.
Proof.
  unfold slice.
  replace (String.length pre + String.length j - String.length pre)%nat
    with (String.length j) by lia.
  rewrite substring_skip. apply substring_prefix.
Qed.

Lemma find_split (c : ascii) (s : string) (i : nat) :
  find c s = Some i ->
  exists pre rest,
    s = (pre ++ String c rest)%string /\ find c pre = None
    /\ String.length pre = i.
Proof.
  revert i; induction s as [|a s IH]; cbn [find]; intros i H;
    [discriminate|].
  destruct (Ascii.eqb a c) eqn:E.
  - apply Ascii.eqb_eq in E. subst a. injection H as <-.
    exists EmptyString, s. auto.
  - destruct (find c s) as [k|] eqn:F; [|discriminate].
    cbn in H. injection H as <-.
    destruct (IH k eq_refl) as (pre & rest & -> & Hn & Hl).
    exists (String a pre), rest. cbn [append find String.length].
    rewrite E, Hn, Hl. auto.
Qed.

Lemma rfind_split (c : ascii) (s : string) (j : nat) :
  rfind c s = Some j ->
  exists init post,
    s = (init ++ String c post)%string /\ rfind c post = None
    /\ String.length init = j.
Proof.
  revert j; induction s as [|a s IH]; cbn [rfind]; intros j H;
    [discriminate|].
  destruct (rfind c s) as [k|] eqn:F.
  - injection H as <-.
    destruct (IH k eq_refl) as (init & post & E & Hn & Hl).
    exists (String a init), post. cbn [append String.length].
    rewrite <- E, Hl. auto.
  - destruct (Ascii.eqb a c) eqn:E; [|discriminate].
    injection H as <-. apply Ascii.eqb_eq in E. subst a.
    exists EmptyString, s. auto.
Qed.

Lemma str_app_split (pre init a b : string) :
  (pre ++ a)%string = (init ++ b)%string ->
  (String.length pre <= String.length init)%nat ->
  exists mid, init = (pre ++ mid)%string /\ a = (mid ++ b)%string.
Proof.
  revert init; induction pre as [|x pre IH]; intros init H L.
  - exists init. auto.
  - destruct init as [|y init]; cbn [String.length] in L; [lia|].
    cbn [append] in H. injection H as -> H.
    destruct (IH init H ltac:(lia)) as (mid & -> & ->).
    exists mid. auto.
Qed.

(** The span from the first opening brace to the last closing brace. *)
Lemma extract_span (loads : string -> option json) (pre body post : string) :
  let json_part := String "{" (body ++ "}")%string in
  find "{" pre = None -> rfind "}" post = None ->
  loads json_part <> None ->
  extract_json_from_formatted_itinerary loads (pre ++ json_part ++ post)
  = Some json_part.
Proof.
  intros json_part Hpre Hpost Hloads.
  unfold extract_json_from_formatted_itinerary.
  rewrite (find_app _ _ _ Hpre).
  assert (Hr : rfind "}" (json_part ++ post)
               = Some (S (String.length body))).
  { rewrite (rfind_app_none _ _ _ Hpost). unfold json_part.
    cbn [rfind]. rewrite rfind_last. reflexivity. }
  rewrite (rfind_app_some _ pre _ _ Hr).
  assert (Hf : find "{" (json_part ++ post) = Some 0%nat) by reflexivity.
  rewrite Hf. cbn [option_map]. rewrite Nat.add_0_r.
  replace (String.length pre + S (String.length body) + 1)%nat
    with (String.length pre + String.length json_part)%nat.
  2:{ unfold json_part. cbn [String.length]. rewrite str_length_app.
      cbn [String.length]. lia. }
  rewrite slice_middle.
  destruct (loads json_part); [reflexivity | contradiction].
Qed.

(** X18. A text made of a prefix without an opening brace, a brace-delimited
    part that [json.loads] accepts, and a suffix without a closing brace:
    the extraction returns exactly the brace-delimited part. *)
Theorem X18_extraction_recovers_json
    (loads : string -> option json) (pre body post : string) :
  let json_part := String "{" (body ++ "}")%string in
  find "{" pre = None -> rfind "}" post = None ->
  loads json_part <> None ->
  extract_json_from_formatted_itinerary loads (pre ++ json_part ++ post)
  = Some json_part.
Proof. exact (extract_span loads pre body post). Qed.

Lemma X18_extraction_recovers_json_witness :
  let loads := fun s : string =>
    if String.eqb s "{}" then Some (JObj []) else None in
  extract_json_from_formatted_itinerary loads "Plan: {} done"%string
  = Some "{}"%string.
Proof.
  intro loads.
  apply (X18_extraction_recovers_json loads "Plan: " "" " done");
    [reflexivity | reflexivity | discriminate].
Defined.

(** X19. Whatever the extraction returns is the part of the text from its
    first opening brace to its last closing brace, [json.loads] accepts it,
    and extracting again from the result gives the result back.  (The empty
    string is not JSON.) *)
Theorem X19_extraction_result_shape
    (loads : string -> option json) (text json_part : string) :
  loads EmptyString = None ->
  extract_json_from_formatted_itinerary loads text = Some json_part ->
  (exists pre body post,
      text = (pre ++ json_part ++ post)%string
      /\ json_part = String "{" (body ++ "}")%string
      /\ find "{" pre = None /\ rfind "}" post = None)
  /\ loads json_part <> None
  /\ extract_json_from_formatted_itinerary loads json_part = Some json_part.
Proof.
  intros Hempty H.
  unfold extract_json_from_formatted_itinerary in H.
  destruct (find "{" text) as [i|] eqn:Ef; [|discriminate].
  destruct (rfind "}" text) as [j|] eqn:Er; [|discriminate].
  cbv zeta in H.
  destruct (loads (slice text i (j + 1))) as [v|] eqn:El; [|discriminate].
  injection H as H.
  destruct (find_split _ _ _ Ef) as (pre & rest & Et & Hpre & Hi).
  destruct (rfind_split _ _ _ Er) as (init & post & Et' & Hpost & Hj).
  destruct (Nat.le_gt_cases i j) as [Hij|Hij].
  2:{ unfold slice in El.
      replace (j + 1 - i)%nat with 0%nat in El by lia.
      rewrite substring_zero in El. congruence. }
  assert (E : (pre ++ String "{" rest)%string
              = (init ++ String "}" post)%string) by congruence.
  destruct (str_app_split _ _ _ _ E ltac:(lia)) as (mid & Einit & Emid).
  destruct mid as [|a body]; cbn [append] in Emid; [discriminate|].
  injection Emid as <- Erest.
  assert (Epart : json_part = String "{" (body ++ "}")%string).
  { rewrite <- H. subst text rest.
    replace (pre ++ String "{" (body ++ String "}" post))%string
      with (pre ++ String "{" (body ++ "}") ++ post)%string.
    2:{ cbn [append]. rewrite str_app_assoc. reflexivity. }
    replace (j + 1)%nat
      with (String.length pre
            + String.length (String "{" (body ++ "}")))%nat.
    2:{ rewrite <- Hj, Einit, !str_length_app. cbn [String.length].
        rewrite str_length_app. cbn [String.length]. lia. }
    rewrite <- Hi. apply slice_middle. }
  assert (Hloads : loads json_part <> None) by (rewrite <- H; congruence).
  split; [|split].
  - exists pre, body, post. split; [|split; [|split]]; auto.
    rewrite Epart, Et, Erest. cbn [append]. rewrite str_app_assoc.
    reflexivity.
  - exact Hloads.
  - rewrite Epart in Hloads |- *.
    pose proof (extract_span loads EmptyString body EmptyString
                  eq_refl eq_refl Hloads) as R.
    cbv zeta in R. cbn [append] in R.
    replace ((body ++ "}") ++ "")%string with (body ++ "}")%string in R.
    + exact R.
    + clear. induction (body ++ "}")%string as [|a s IH]; cbn [append];
        [reflexivity|]. rewrite <- IH. reflexivity.
Qed.

Lemma X19_extraction_result_shape_witness :
  let loads := fun s : string =>
    if String.eqb s "{}" then Some (JObj []) else None in
  loads "{}"%string <> None
  /\ extract_json_from_formatted_itinerary loads "{}"%string
     = Some "{}"%string.
Proof.
  intro loads.
  exact (proj2 (X19_extraction_result_shape loads "Plan: {} done" "{}"
                  eq_refl eq_refl)).
Defined.

(** ** The table of an itinerary *)

Lemma day_rows_object (day : json) :
  is_object day = true ->
  exists rows,
    day_rows day = Some rows /\ length rows = 6%nat
    /\ map row_slot rows = all_slots.
Proof.
  destruct day; try discriminate. intros _.
  eexists. split; [reflexivity|]. split; reflexivity.
Qed.

Lemma day_rows_other (day : json) :
  is_object day = false -> day_rows day = None.
Proof. destruct day; try discriminate; reflexivity. Qed.

Lemma all_day_rows_objects (items : list json) :
  forallb is_object items = true ->
  exists rows,
    all_day_rows items = Some rows
    /\ length rows = (6 * length items)%nat
    /\ map row_slot rows = concat (map (fun _ => all_slots) items)
    /\ forall d day drows k,
         nth_error items d = Some day -> day_rows day = Some drows ->
         (k < 6)%nat ->
         nth_error rows (6 * d + k) = nth_error drows k.
Proof.
  induction items as [|day items IH]; intro H.
  - exists []. split; [reflexivity|]. split; [reflexivity|].
    split; [reflexivity|]. intros [|d]; discriminate.
  - cbn [forallb] in H. apply andb_true_iff in H as [Hd Hi].
    destruct (day_rows_object day Hd) as (r0 & E0 & L0 & S0).
    destruct (IH Hi) as (more & Em & Lm & Sm & Nm).
    exists (r0 ++ more). cbn [all_day_rows]. rewrite E0, Em.
    split; [reflexivity|]. split; [|split].
    + rewrite length_app, L0, Lm. cbn [length]. lia.
    + rewrite map_app, S0, Sm. reflexivity.
    + intros [|d] day' drows k Hn Hr Hk.
      * cbn in Hn. injection Hn as <-. rewrite E0 in Hr.
        injection Hr as <-. rewrite Nat.mul_0_r, Nat.add_0_l.
        apply nth_error_app1. lia.
      * cbn [nth_error] in Hn.
        rewrite nth_error_app2 by lia.
        replace (6 * S d + k - length r0)%nat with (6 * d + k)%nat by lia.
        exact (Nm d day' drows k Hn Hr Hk).
Qed.

Lemma all_day_rows_other (items : list json) :
  forallb is_object items = false -> all_day_rows items = None.
Proof.
  induction items as [|day items IH]; cbn [forallb all_day_rows]; intro H;
    [discriminate|].
  apply andb_false_iff in H as [H|H].
  - rewrite (day_rows_other _ H). reflexivity.
  - rewrite (IH H). destruct (day_rows day); reflexivity.
Qed.

(** X20. When the cleaned text parses to an object whose ["days"] is a list:
    if every element of the list is an object, the table has six rows per
    day, in the order morning, lunch, afternoon, evening, dinner, night, and
    rows [6d .. 6d+5] are those of day [d]; if one element is not an object,
    there is no table at all. *)
Theorem X20_six_rows_per_day
    (loads : string -> option json) (text cleaned : string)
    (fields : list (string * json)) (items : list json) :
  clean_itinerary_text text = Some cleaned ->
  loads cleaned = Some (JObj fields) ->
  dict_get fields "days" = Some (JArr items) ->
  if forallb is_object items
  then exists rows,
         convert_itinerary_to_csv_data loads text = Some rows
         /\ length rows = (6 * length items)%nat
         /\ map row_slot rows = concat (map (fun _ => all_slots) items)
         /\ forall d day drows k,
              nth_error items d = Some day -> day_rows day = Some drows ->
              (k < 6)%nat ->
              nth_error rows (6 * d + k) = nth_error drows k
  else convert_itinerary_to_csv_data loads text = None.
Proof.
  intros Hc Hl Hd. unfold convert_itinerary_to_csv_data.
  rewrite Hc, Hl, Hd. cbn [iterate].
  destruct (forallb is_object items) eqn:E.
  - exact (all_day_rows_objects items E).
  - exact (all_day_rows_other items E).
Qed.

Lemma X20_six_rows_per_day_witness :
  let day1 := JObj [("day", JNum 1); ("morning", JStr "Louvre")]%string in
  let day2 := JObj [("day", JNum 2); ("dinner", JStr "Bistro")]%string in
  let reply := JObj [("days", JArr [day1; day2])]%string in
  let loads := fun s : string =>
    if String.eqb s "{days}" then Some reply else None in
  exists rows,
    convert_itinerary_to_csv_data loads "Here: {days}"%string = Some rows
    /\ length rows = 12%nat
    /\ option_map row_description (nth_error rows 10)
       = Some (JStr "Bistro").
Proof.
  intros day1 day2 reply loads.
  destruct (X20_six_rows_per_day loads "Here: {days}" "{days}"
              [("days", JArr [day1; day2])]%string [day1; day2]
              eq_refl eq_refl eq_refl)
    as (rows & E & L & _ & N).
  exists rows. split; [exact E|]. split; [exact L|].
  change 10%nat with (6 * 1 + 4)%nat.
  rewrite (N 1%nat day2 _ 4%nat eq_refl eq_refl ltac:(lia)). reflexivity.
Defined.

Lemma brace_positions_differ (s : string) (i j : nat) :
  find "{" s = Some i -> rfind "}" s = Some j -> i <> j.
Proof.
  intros Ef Er Eij.
  destruct (find_split _ _ _ Ef) as (pre & rest & Et & _ & Hi).
  destruct (rfind_split _ _ _ Er) as (init & post & Et' & _ & Hj).
  assert (E : (pre ++ String "{" rest)%string
              = (init ++ String "}" post)%string) by congruence.
  destruct (str_app_split _ _ _ _ E ltac:(lia)) as (mid & Einit & Emid).
  assert (L : String.length mid = 0%nat).
  { assert (String.length init
            = (String.length pre + String.length mid)%nat)
      by (rewrite Einit; apply str_length_app).
    lia. }
  destruct mid; [|discriminate]. discriminate.
Qed.

(** X21. The debugging helper predicts the table: whenever it reports a
    problem (no text, a missing brace, brace positions out of order, a
    parsing error), the conversion to a table returns nothing; when it
    reports valid JSON at positions [i]-[j], then [i < j] and the text the
    conversion parses is the part the extraction returns for the stripped
    text; when the stripped text starts with a brace, the conversion parses
    all of it.  (The empty string is not JSON.) *)
Theorem X21_debug_predicts_table
    (loads : string -> option json) (text : string) :
  loads EmptyString = None ->
  match debug_itinerary_format loads text with
  | NoText | NoOpeningBrace | NoClosingBrace | InvalidBracePositions
  | JsonParsingError =>
      convert_itinerary_to_csv_data loads text = None
  | ValidJsonAt i j =>
      (i < j)%nat
      /\ exists json_part,
           clean_itinerary_text text = Some json_part
           /\ extract_json_from_formatted_itinerary loads (strip text)
              = Some json_part
           /\ loads json_part <> None
  | StartsWithJson => clean_itinerary_text text = Some (strip text)
  end.
Proof.
  intro He.
  unfold debug_itinerary_format, convert_itinerary_to_csv_data,
    clean_itinerary_text, extract_json_from_formatted_itinerary.
  destruct (negb (nonempty text) || negb (nonempty (strip text)));
    [reflexivity|].
  cbv zeta.
  destruct (startswith_brace (strip text)); [reflexivity|].
  destruct (find "{" (strip text)) as [i|] eqn:Ef; [|reflexivity].
  destruct (rfind "}" (strip text)) as [j|] eqn:Er; [|reflexivity].
  pose proof (brace_positions_differ _ _ _ Ef Er) as Hne.
  destruct (j <=? i)%nat eqn:Eij.
  - apply Nat.leb_le in Eij. unfold slice.
    replace (j + 1 - i)%nat with 0%nat by lia.
    rewrite substring_zero, He. reflexivity.
  - apply Nat.leb_gt in Eij.
    destruct (loads (slice (strip text) i (j + 1))) as [v|] eqn:El.
    + split; [exact Eij|]. eexists. split; [reflexivity|].
      rewrite El. split; [reflexivity | congruence].
    + reflexivity.
Qed.

Lemma X21_debug_predicts_table_witness :
  let loads := fun s : string =>
    if String.eqb s "{}" then Some (JObj []) else None in
  convert_itinerary_to_csv_data loads "Plan: } then {"%string = None.
Proof.
  intro loads.
  exact (X21_debug_predicts_table loads "Plan: } then {" eq_refl).
Defined.
